(** * ZSWatch display control: state machine, brightness and render work

    Shallow embedding of [app/src/drivers/zsw_display_control.c].

    The three file-scope variables of the driver ([display_state],
    [first_render_since_poweron], [last_brightness]) form the [state] record.
    Calls into Zephyr and LVGL are recorded, in program order, as a trace of
    [event]s.  What the driver reads from its environment is gathered in the
    [platform] record: the answers of [device_is_ready], the PWM period, the
    return code of [pwm_set_pulse_dt] (the only return code the driver looks
    at) and the Kconfig symbols [CONFIG_ASSERT] and
    [CONFIG_BOARD_NATIVE_POSIX].  The two [__ASSERT]s of
    [zsw_display_control_set_brightness] are modelled: a failing assertion
    ends the run ([Panics]) with the state and the trace reached so far.
    [k_mutex_lock]/[k_mutex_unlock] and the [LOG_*] macros are left out: the
    embedding is sequential and logging does not influence control flow. *)

From Stdlib Require Import ZArith List Bool Lia.
Import ListNotations.
Local Open Scope Z_scope.

(** ** Constants of the C environment *)

(** Zephyr's [errno.h]. *)
Definition EIO : Z := 5.
Definition EALREADY : Z := 120.

(** Conversions to the unsigned types of the source. *)
Definition uint8_t (z : Z) : Z := z mod 256.
Definition uint32_t (z : Z) : Z := z mod 2 ^ 32.

(** ** Data model *)

(** [typedef enum display_state { ... } display_state_t;] *)
Inductive display_state_t : Type :=
| DISPLAY_STATE_AWAKE
| DISPLAY_STATE_SLEEPING
| DISPLAY_STATE_POWERED_OFF.

(** The four device handles of the file: [display_blk.dev], [reg_dev],
    [display_dev], [touch_dev]. *)
Inductive device : Type :=
| display_blk
| reg_dev
| display_dev
| touch_dev.

Definition device_eqb (a b : device) : bool :=
  match a, b with
  | display_blk, display_blk => true
  | reg_dev, reg_dev => true
  | display_dev, display_dev => true
  | touch_dev, touch_dev => true
  | _, _ => false
  end.

(** [enum pm_device_action], the four actions the driver uses. *)
Inductive pm_device_action : Type :=
| PM_DEVICE_ACTION_SUSPEND
| PM_DEVICE_ACTION_RESUME
| PM_DEVICE_ACTION_TURN_OFF
| PM_DEVICE_ACTION_TURN_ON.

(** What the driver is compiled for and runs on: the answers of
    [device_is_ready], the PWM period of [display_blk], the return code of
    [pwm_set_pulse_dt] for a given pulse width, and the two Kconfig symbols
    that decide what is compiled in. *)
Record platform : Type := {
  device_is_ready : device -> bool;
  period : Z;
  pwm_set_pulse_dt : Z -> Z;
  CONFIG_ASSERT : bool;
  CONFIG_BOARD_NATIVE_POSIX : bool
}.

(** The same platform with the readiness of one device overridden. *)
Definition with_ready (hw : platform) (d : device) (b : bool) : platform :=
  {| device_is_ready := fun d' => if device_eqb d' d then b else device_is_ready hw d';
     period := period hw;
     pwm_set_pulse_dt := pwm_set_pulse_dt hw;
     CONFIG_ASSERT := CONFIG_ASSERT hw;
     CONFIG_BOARD_NATIVE_POSIX := CONFIG_BOARD_NATIVE_POSIX hw |}.

(** Calls that leave the driver. *)
Inductive event : Type :=
| ev_display_blanking_on (d : device)
| ev_display_blanking_off (d : device)
| ev_pm_device_action_run (d : device) (a : pm_device_action)
| ev_pwm_set_pulse_dt (pulse : Z)
| ev_regulator_enable (d : device)
| ev_regulator_disable (d : device)
| ev_k_work_schedule (ms : Z)
| ev_k_work_cancel_delayable_sync
| ev_lv_obj_invalidate
| ev_lv_task_handler.

Definition trace : Type := list event.

(** The device an event is addressed to, if any. *)
Definition target (e : event) : option device :=
  match e with
  | ev_display_blanking_on d => Some d
  | ev_display_blanking_off d => Some d
  | ev_pm_device_action_run d _ => Some d
  | ev_pwm_set_pulse_dt _ => Some display_blk
  | ev_regulator_enable d => Some d
  | ev_regulator_disable d => Some d
  | _ => None
  end.

Definition targets (d : device) (e : event) : bool :=
  match target e with
  | Some d' => device_eqb d' d
  | None => false
  end.

(** The file-scope variables. *)
Record state : Type := {
  display_state : display_state_t;
  first_render_since_poweron : bool;
  last_brightness : Z
}.

(** Static initialisation: [display_state] is zero-initialised (the first
    enumerator), the flag is [false], [last_brightness = 30]. *)
Definition boot_state : state :=
  {| display_state := DISPLAY_STATE_AWAKE;
     first_render_since_poweron := false;
     last_brightness := 30 |}.

(** ** State, trace and assertion monad *)

Inductive outcome (A : Type) : Type :=
| Returns (a : A) (s : state) (t : trace)
| Panics (s : state) (t : trace).
Arguments Returns {A} a s t.
Arguments Panics {A} s t.

Definition M (A : Type) : Type := state -> outcome A.

Definition ret {A} (a : A) : M A := fun s => Returns a s [].

Definition bind {A B} (m : M A) (k : A -> M B) : M B :=
  fun s =>
    match m s with
    | Returns a s1 t1 =>
        match k a s1 with
        | Returns b s2 t2 => Returns b s2 (t1 ++ t2)
        | Panics s2 t2 => Panics s2 (t1 ++ t2)
        end
    | Panics s1 t1 => Panics s1 t1
    end.

Notation "x <- m ;; k" := (bind m (fun x => k))
  (at level 61, m at next level, right associativity).
Notation "m ;; k" := (bind m (fun _ => k))
  (at level 61, right associativity).

Definition get : M state := fun s => Returns s s [].
Definition put (s : state) : M unit := fun _ => Returns tt s [].
Definition emit (e : event) : M unit := fun s => Returns tt s [e].
Definition panic {A} : M A := fun s => Panics s [].
Definition when (b : bool) (m : M unit) : M unit := if b then m else ret tt.

Definition result_of {A} (o : outcome A) : option A :=
  match o with Returns a _ _ => Some a | Panics _ _ => None end.
Definition state_of {A} (o : outcome A) : state :=
  match o with Returns _ s _ => s | Panics s _ => s end.
Definition trace_of {A} (o : outcome A) : trace :=
  match o with Returns _ _ t => t | Panics _ t => t end.

(** Assignments to the three variables. *)
Definition set_display_state (d : display_state_t) : M unit :=
  s <- get ;;
  put {| display_state := d;
         first_render_since_poweron := first_render_since_poweron s;
         last_brightness := last_brightness s |}.

Definition set_first_render_since_poweron (b : bool) : M unit :=
  s <- get ;;
  put {| display_state := display_state s;
         first_render_since_poweron := b;
         last_brightness := last_brightness s |}.

Definition set_last_brightness (p : Z) : M unit :=
  s <- get ;;
  put {| display_state := display_state s;
         first_render_since_poweron := first_render_since_poweron s;
         last_brightness := p |}.

(** ** The driver *)

Section Driver.

Variable hw : platform.

(** [__ASSERT(cond, ...)]: compiled out unless [CONFIG_ASSERT]. *)
Definition __ASSERT (cond : bool) : M unit :=
  if CONFIG_ASSERT hw then (if cond then ret tt else panic) else ret tt.

(** [void zsw_display_control_init(void)] *)
Definition zsw_display_control_init : M unit :=
  set_display_state DISPLAY_STATE_SLEEPING.

(** [uint8_t zsw_display_control_get_brightness(void)] *)
Definition zsw_display_control_get_brightness : M Z :=
  s <- get ;;
  ret (last_brightness s).

(** [uint32_t pulse_width = percent * (display_blk.period / 100);] *)
Definition pulse_width (percent : Z) : Z :=
  uint32_t (percent * (period hw / 100)).

(** [void zsw_display_control_set_brightness(uint8_t percent)] *)
Definition zsw_display_control_set_brightness (percent : Z) : M unit :=
  let percent := uint8_t percent in
  if negb (device_is_ready hw display_blk) then ret tt
  else
    __ASSERT ((0 <=? percent) && (percent <=? 100)) ;;
    when (negb (percent =? 0)) (set_last_brightness percent) ;;
    emit (ev_pwm_set_pulse_dt (pulse_width percent)) ;;
    __ASSERT (pwm_set_pulse_dt hw (pulse_width percent) =? 0).

(** [int zsw_display_control_sleep_ctrl(bool on)] *)
Definition zsw_display_control_sleep_ctrl (on : bool) : M Z :=
  s <- get ;;
  match display_state s with
  | DISPLAY_STATE_AWAKE =>
      if on then ret (- EALREADY)
      else
        set_display_state DISPLAY_STATE_SLEEPING ;;
        emit (ev_display_blanking_on display_dev) ;;
        emit (ev_pm_device_action_run display_dev PM_DEVICE_ACTION_SUSPEND) ;;
        when (device_is_ready hw touch_dev)
             (emit (ev_pm_device_action_run touch_dev PM_DEVICE_ACTION_SUSPEND)) ;;
        zsw_display_control_set_brightness 0 ;;
        emit ev_k_work_cancel_delayable_sync ;;
        emit ev_lv_obj_invalidate ;;
        ret 0
  | DISPLAY_STATE_SLEEPING =>
      if on then
        set_display_state DISPLAY_STATE_AWAKE ;;
        emit (ev_pm_device_action_run display_dev PM_DEVICE_ACTION_RESUME) ;;
        when (device_is_ready hw touch_dev)
             (emit (ev_pm_device_action_run touch_dev PM_DEVICE_ACTION_RESUME)) ;;
        s1 <- get ;;
        when (negb (first_render_since_poweron s1))
             (zsw_display_control_set_brightness (last_brightness s1)) ;;
        emit (ev_display_blanking_off display_dev) ;;
        emit (ev_k_work_schedule 250) ;;
        ret 0
      else ret (- EALREADY)
  | DISPLAY_STATE_POWERED_OFF =>
      ret (- EIO)
  end.

(** [int zsw_display_control_pwr_ctrl(bool on)]; [res] starts as
    [-EALREADY] and is only overwritten by the two transitions. *)
Definition zsw_display_control_pwr_ctrl (on : bool) : M Z :=
  s <- get ;;
  match display_state s with
  | DISPLAY_STATE_AWAKE => ret (- EALREADY)
  | DISPLAY_STATE_SLEEPING =>
      if on then ret (- EALREADY)
      else if device_is_ready hw reg_dev then
        set_display_state DISPLAY_STATE_POWERED_OFF ;;
        when (negb (CONFIG_BOARD_NATIVE_POSIX hw)) (emit (ev_regulator_disable reg_dev)) ;;
        emit (ev_pm_device_action_run display_dev PM_DEVICE_ACTION_TURN_OFF) ;;
        ret 0
      else ret (- EALREADY)
  | DISPLAY_STATE_POWERED_OFF =>
      if on then
        if device_is_ready hw reg_dev then
          set_display_state DISPLAY_STATE_SLEEPING ;;
          when (negb (CONFIG_BOARD_NATIVE_POSIX hw)) (emit (ev_regulator_enable reg_dev)) ;;
          emit (ev_pm_device_action_run display_dev PM_DEVICE_ACTION_TURN_ON) ;;
          set_first_render_since_poweron true ;;
          ret 0
        else ret (- EALREADY)
      else ret (- EALREADY)
  end.

(** [static void lvgl_render(struct k_work *item)]; the argument is the
    value [lv_task_handler()] returns on this pass. *)
Definition lvgl_render (next_update_in_ms : Z) : M unit :=
  emit ev_lv_task_handler ;;
  s <- get ;;
  when (first_render_since_poweron s)
       (zsw_display_control_set_brightness (last_brightness s) ;;
        set_first_render_since_poweron false) ;;
  emit (ev_k_work_schedule next_update_in_ms).

End Driver.

(** ** Sequences of calls *)

(** The entry points a caller (or the work queue) can invoke. *)
Inductive op : Type :=
| op_init
| op_sleep_ctrl (on : bool)
| op_pwr_ctrl (on : bool)
| op_set_brightness (percent : Z)
| op_get_brightness
| op_lvgl_render (next_update_in_ms : Z).

(** The two transition entry points, for statements about both. *)
Inductive transition : Type :=
| sleep_ctrl
| pwr_ctrl.

Definition discard {A} (m : M A) : M unit :=
  fun s =>
    match m s with
    | Returns _ s' t => Returns tt s' t
    | Panics s' t => Panics s' t
    end.

Definition request (hw : platform) (tr : transition) (on : bool) : M Z :=
  match tr with
  | sleep_ctrl => zsw_display_control_sleep_ctrl hw on
  | pwr_ctrl => zsw_display_control_pwr_ctrl hw on
  end.

Definition step (hw : platform) (o : op) : M unit :=
  match o with
  | op_init => zsw_display_control_init
  | op_sleep_ctrl on => discard (zsw_display_control_sleep_ctrl hw on)
  | op_pwr_ctrl on => discard (zsw_display_control_pwr_ctrl hw on)
  | op_set_brightness percent => zsw_display_control_set_brightness hw percent
  | op_get_brightness => discard zsw_display_control_get_brightness
  | op_lvgl_render ms => lvgl_render hw ms
  end.

(** Runs the calls in order; a failed assertion ends the run. *)
Fixpoint run (hw : platform) (ops : list op) : M unit :=
  match ops with
  | [] => ret tt
  | o :: ops' => step hw o ;; run hw ops'
  end.

(** The states observed between the calls of a run, the first one included. *)
Fixpoint trajectory (hw : platform) (ops : list op) (s : state) : list state :=
  match ops with
  | [] => [s]
  | o :: ops' =>
      s :: match step hw o s with
           | Returns _ s' _ => trajectory hw ops' s'
           | Panics s' _ => [s']
           end
  end.

(** A step between [Awake] and [PoweredOff], in either direction. *)
Definition direct_jump (a b : display_state_t) : bool :=
  match a, b with
  | DISPLAY_STATE_AWAKE, DISPLAY_STATE_POWERED_OFF => true
  | DISPLAY_STATE_POWERED_OFF, DISPLAY_STATE_AWAKE => true
  | _, _ => false
  end.

Fixpoint no_direct_jumps (l : list state) : bool :=
  match l with
  | a :: (b :: _) as tl =>
      negb (direct_jump (display_state a) (display_state b)) && no_direct_jumps tl
  | _ => true
  end.

(** ** The specification's vocabulary *)

(** Result taxonomy of the specification and its encoding as return codes. *)
Inductive result_code : Type :=
| Ok
| AlreadyInState
| HardwareUnavailable.

Definition code_of (r : result_code) : Z :=
  match r with
  | Ok => 0
  | AlreadyInState => - EALREADY
  | HardwareUnavailable => - EIO
  end.

(** Transition table for [sleep_ctrl], as the specification words it:
    next state and result for each current state and argument. *)
Definition sleep_table (cur : display_state_t) (on : bool)
  : display_state_t * result_code :=
  match cur, on with
  | DISPLAY_STATE_AWAKE, true => (DISPLAY_STATE_AWAKE, AlreadyInState)
  | DISPLAY_STATE_AWAKE, false => (DISPLAY_STATE_SLEEPING, Ok)
  | DISPLAY_STATE_SLEEPING, true => (DISPLAY_STATE_AWAKE, Ok)
  | DISPLAY_STATE_SLEEPING, false => (DISPLAY_STATE_SLEEPING, AlreadyInState)
  | DISPLAY_STATE_POWERED_OFF, _ => (DISPLAY_STATE_POWERED_OFF, HardwareUnavailable)
  end.

(** Transition table for [pwr_ctrl], as the specification words it; [refused]
    is the result it gives to a transition refused because the regulator is
    not ready. *)
Definition pwr_table_with (refused : result_code) (regulator_ready : bool)
    (cur : display_state_t) (on : bool) : display_state_t * result_code :=
  match cur, on with
  | DISPLAY_STATE_SLEEPING, false =>
      if regulator_ready then (DISPLAY_STATE_POWERED_OFF, Ok)
      else (DISPLAY_STATE_SLEEPING, refused)
  | DISPLAY_STATE_POWERED_OFF, true =>
      if regulator_ready then (DISPLAY_STATE_SLEEPING, Ok)
      else (DISPLAY_STATE_POWERED_OFF, refused)
  | _, _ => (cur, AlreadyInState)
  end.

(** The table with the refusal result the specification names. *)
Definition pwr_table_spec := pwr_table_with HardwareUnavailable.

(** The regulator command of a power transition: compiled out on the
    native POSIX board. *)
Definition regulator_cmd (hw : platform) (e : event) : trace :=
  if CONFIG_BOARD_NATIVE_POSIX hw then [] else [e].

(** The touch controller command of a sleep or wake transition. *)
Definition touch_cmd (hw : platform) (a : pm_device_action) : trace :=
  if device_is_ready hw touch_dev then [ev_pm_device_action_run touch_dev a] else [].

(** The backlight command of a brightness request. *)
Definition backlight_cmd (hw : platform) (percent : Z) : trace :=
  if device_is_ready hw display_blk
  then [ev_pwm_set_pulse_dt (pulse_width hw (uint8_t percent))]
  else [].

(** A brightness request passes both assertions (or meets none). *)
Definition brightness_call_ok (hw : platform) (percent : Z) : bool :=
  negb (device_is_ready hw display_blk)
  || negb (CONFIG_ASSERT hw)
  || ((uint8_t percent <=? 100)
      && (pwm_set_pulse_dt hw (pulse_width hw (uint8_t percent)) =? 0)).

(** The brightness request a transition makes, if any, passes. *)
Definition sleep_call_ok (hw : platform) (on : bool) (s : state) : bool :=
  match display_state s, on with
  | DISPLAY_STATE_AWAKE, false => brightness_call_ok hw 0
  | DISPLAY_STATE_SLEEPING, true =>
      first_render_since_poweron s || brightness_call_ok hw (last_brightness s)
  | _, _ => true
  end.

(** The state with the remembered brightness replaced. *)
Definition remember (percent : Z) (s : state) : state :=
  if uint8_t percent =? 0 then s
  else {| display_state := display_state s;
          first_render_since_poweron := first_render_since_poweron s;
          last_brightness := uint8_t percent |}.

Definition with_display_state (d : display_state_t) (s : state) : state :=
  {| display_state := d;
     first_render_since_poweron := first_render_since_poweron s;
     last_brightness := last_brightness s |}.

Definition with_first_render (b : bool) (s : state) : state :=
  {| display_state := display_state s;
     first_render_since_poweron := b;
     last_brightness := last_brightness s |}.

(** The remembered brightness is a nonzero [uint8_t]. *)
Definition brightness_remembered (s : state) : Prop :=
  1 <= last_brightness s <= 255.

(** Concrete platforms and states used in examples. *)
Definition pwm_always_ok : Z -> Z := fun _ => 0.

Definition watch : platform :=
  {| device_is_ready := fun _ => true;
     period := 1000000;
     pwm_set_pulse_dt := pwm_always_ok;
     CONFIG_ASSERT := true;
     CONFIG_BOARD_NATIVE_POSIX := false |}.

Definition state_in (d : display_state_t) : state :=
  with_display_state d boot_state.

(** The watch with one component absent. *)
Definition no_backlight : platform := with_ready watch display_blk false.
Definition no_regulator : platform := with_ready watch reg_dev false.
Definition no_panel : platform := with_ready watch display_dev false.
Definition no_touch : platform := with_ready watch touch_dev false.

(** A backlight whose PWM period is not a multiple of 100. *)
Definition odd_period : platform :=
  {| device_is_ready := fun _ => true;
     period := 150;
     pwm_set_pulse_dt := pwm_always_ok;
     CONFIG_ASSERT := true;
     CONFIG_BOARD_NATIVE_POSIX := false |}.

(** ** Vocabulary for runs *)

(** The last pulse width commanded to the backlight in a trace, if any. *)
Fixpoint last_backlight (t : trace) : option Z :=
  match t with
  | [] => None
  | e :: t' =>
      match last_backlight t' with
      | Some p => Some p
      | None =>
          match e with
          | ev_pwm_set_pulse_dt p => Some p
          | _ => None
          end
      end
  end.

(** No backlight command, or a pulse width of 0. *)
Definition dark (o : option Z) : bool :=
  match o with
  | Some p => p =? 0
  | None => true
  end.

(** Calls of the power manager: sleep and power requests and the brightness
    query; no [init], no direct brightness request, no render pass. *)
Definition is_request (o : op) : bool :=
  match o with
  | op_sleep_ctrl _ | op_pwr_ctrl _ | op_get_brightness => true
  | _ => false
  end.


(** A backlight command stays within the PWM period. *)
Definition pulse_within_period (hw : platform) (e : event) : Prop :=
  match e with
  | ev_pwm_set_pulse_dt p => 0 <= p <= period hw
  | _ => True
  end.


(** ** Basic facts *)

Lemma uint8_t_range (z : Z) : 0 <= uint8_t z < 256.
Proof. unfold uint8_t. apply Z.mod_pos_bound. lia. Qed.

Lemma uint8_t_small (z : Z) : 0 <= z < 256 -> uint8_t z = z.
Proof. intros H. unfold uint8_t. apply Z.mod_small. exact H. Qed.

Lemma state_eta (s : state) :
  {| display_state := display_state s;
     first_render_since_poweron := first_render_since_poweron s;
     last_brightness := last_brightness s |} = s.
Proof. destruct s; reflexivity. Qed.

Arguments uint8_t : simpl never.
Arguments uint32_t : simpl never.
Arguments pulse_width : simpl never.

(** The four tests a brightness request for [p] on [hw] goes through. *)
Ltac brightness_cases hw p :=
  destruct (device_is_ready hw display_blk), (CONFIG_ASSERT hw),
    (uint8_t p <=? 100), (pwm_set_pulse_dt hw _ =? 0).

(** [zsw_display_control_set_brightness] in closed form. *)
Lemma set_brightness_eq (hw : platform) (percent : Z) (s : state) :
  zsw_display_control_set_brightness hw percent s =
  if negb (device_is_ready hw display_blk) then Returns tt s []
  else if CONFIG_ASSERT hw && negb (uint8_t percent <=? 100) then Panics s []
  else if CONFIG_ASSERT hw
          && negb (pwm_set_pulse_dt hw (pulse_width hw (uint8_t percent)) =? 0)
  then Panics (remember percent s) [ev_pwm_set_pulse_dt (pulse_width hw (uint8_t percent))]
  else Returns tt (remember percent s)
         [ev_pwm_set_pulse_dt (pulse_width hw (uint8_t percent))].
Proof.
  unfold zsw_display_control_set_brightness, remember, __ASSERT.
  pose proof (uint8_t_range percent) as Hr.
  destruct (device_is_ready hw display_blk); cbn [negb]; [ | reflexivity ].
  assert (H0 : (0 <=? uint8_t percent) = true) by (apply Z.leb_le; lia).
  unfold bind, when, emit, ret, panic, set_last_brightness, get, put.
  rewrite H0. cbn [andb].
  destruct (CONFIG_ASSERT hw); cbn [andb negb];
    destruct (uint8_t percent <=? 100); cbn [negb];
    destruct (uint8_t percent =? 0); cbn [negb app];
    try destruct (pwm_set_pulse_dt hw _ =? 0); cbn [negb app];
    try rewrite state_eta; reflexivity.
Qed.

Lemma remember_display_state (p : Z) (s : state) :
  display_state (remember p s) = display_state s.
Proof. unfold remember. destruct (uint8_t p =? 0); reflexivity. Qed.

(** Re-requesting the remembered brightness leaves the state alone. *)
Lemma remember_same (p : Z) (s : state) :
  0 <= p < 256 -> last_brightness s = p -> remember p s = s.
Proof.
  intros H E. unfold remember. rewrite (uint8_t_small _ H).
  destruct (p =? 0); [ reflexivity | rewrite <- E; apply state_eta ].
Qed.

(** A brightness request returns exactly when it passes the assertions. *)
Lemma set_brightness_returns (hw : platform) (percent : Z) (s : state) :
  result_of (zsw_display_control_set_brightness hw percent s) = Some tt
  <-> brightness_call_ok hw percent = true.
Proof.
  rewrite set_brightness_eq. unfold brightness_call_ok.
  brightness_cases hw percent;
    cbn; split; congruence.
Qed.

(** State and trace of a brightness request that passes. *)
Lemma set_brightness_ok_eq (hw : platform) (percent : Z) (s : state) :
  brightness_call_ok hw percent = true ->
  zsw_display_control_set_brightness hw percent s =
  Returns tt (if device_is_ready hw display_blk then remember percent s else s)
             (backlight_cmd hw percent).
Proof.
  rewrite set_brightness_eq. unfold brightness_call_ok, backlight_cmd.
  brightness_cases hw percent;
    cbn; congruence.
Qed.

(** The remembered brightness after a request, passed or not. *)
Lemma set_brightness_last_brightness (hw : platform) (percent : Z) (s : state) :
  let s' := state_of (zsw_display_control_set_brightness hw percent s) in
  last_brightness s' = last_brightness s \/
  (last_brightness s' = uint8_t percent /\ uint8_t percent <> 0).
Proof.
  cbv zeta. rewrite set_brightness_eq. unfold remember.
  brightness_cases hw percent;
    cbn [negb andb state_of]; auto;
    destruct (uint8_t percent =? 0) eqn:E; cbn [last_brightness]; auto;
    right; split; auto; apply Z.eqb_neq; exact E.
Qed.

Lemma set_brightness_display_state (hw : platform) (percent : Z) (s : state) :
  display_state (state_of (zsw_display_control_set_brightness hw percent s))
  = display_state s.
Proof.
  rewrite set_brightness_eq.
  brightness_cases hw percent;
    cbn [negb andb state_of]; auto using remember_display_state.
Qed.

(** The two transitions of [zsw_display_control_sleep_ctrl] in terms of the
    brightness request they contain. *)
Lemma sleep_ctrl_sleep_eq (hw : platform) (s : state) :
  display_state s = DISPLAY_STATE_AWAKE ->
  zsw_display_control_sleep_ctrl hw false s =
  let pre := [ev_display_blanking_on display_dev;
              ev_pm_device_action_run display_dev PM_DEVICE_ACTION_SUSPEND]
             ++ touch_cmd hw PM_DEVICE_ACTION_SUSPEND in
  match zsw_display_control_set_brightness hw 0
          (with_display_state DISPLAY_STATE_SLEEPING s) with
  | Returns _ s' t =>
      Returns 0 s' (pre ++ t ++ [ev_k_work_cancel_delayable_sync; ev_lv_obj_invalidate])
  | Panics s' t => Panics s' (pre ++ t)
  end.
Proof.
  intros Hs.
  unfold zsw_display_control_sleep_ctrl. unfold bind at 1. unfold get.
  cbv beta iota. rewrite Hs.
  cbv beta iota delta [set_display_state bind get put emit ret when touch_cmd
                       with_display_state].
  destruct (device_is_ready hw touch_dev);
    destruct (zsw_display_control_set_brightness hw 0 _);
    cbn [app]; rewrite ?app_nil_r; reflexivity.
Qed.

Lemma sleep_ctrl_wake_eq (hw : platform) (s : state) :
  display_state s = DISPLAY_STATE_SLEEPING ->
  zsw_display_control_sleep_ctrl hw true s =
  let pre := [ev_pm_device_action_run display_dev PM_DEVICE_ACTION_RESUME]
             ++ touch_cmd hw PM_DEVICE_ACTION_RESUME in
  let post := [ev_display_blanking_off display_dev; ev_k_work_schedule 250] in
  let s1 := with_display_state DISPLAY_STATE_AWAKE s in
  if first_render_since_poweron s then Returns 0 s1 (pre ++ post)
  else
    match zsw_display_control_set_brightness hw (last_brightness s) s1 with
    | Returns _ s' t => Returns 0 s' (pre ++ t ++ post)
    | Panics s' t => Panics s' (pre ++ t)
    end.
Proof.
  intros Hs.
  unfold zsw_display_control_sleep_ctrl. unfold bind at 1. unfold get.
  cbv beta iota. rewrite Hs.
  cbv beta iota delta [set_display_state bind get put emit ret when touch_cmd
                       with_display_state first_render_since_poweron
                       last_brightness negb].
  destruct s as [d fr lb]; cbv beta iota.
  destruct (device_is_ready hw touch_dev), fr; cbv beta iota;
    try destruct (zsw_display_control_set_brightness hw lb _);
    cbn [app]; rewrite ?app_nil_r; reflexivity.
Qed.

(** [zsw_display_control_pwr_ctrl] in closed form; it contains no assertion
    and always returns. *)
Lemma pwr_ctrl_eq (hw : platform) (on : bool) (s : state) :
  zsw_display_control_pwr_ctrl hw on s =
  match display_state s, on with
  | DISPLAY_STATE_SLEEPING, false =>
      if device_is_ready hw reg_dev then
        Returns 0 (with_display_state DISPLAY_STATE_POWERED_OFF s)
          (regulator_cmd hw (ev_regulator_disable reg_dev)
           ++ [ev_pm_device_action_run display_dev PM_DEVICE_ACTION_TURN_OFF])
      else Returns (- EALREADY) s []
  | DISPLAY_STATE_POWERED_OFF, true =>
      if device_is_ready hw reg_dev then
        Returns 0 (with_first_render true (with_display_state DISPLAY_STATE_SLEEPING s))
          (regulator_cmd hw (ev_regulator_enable reg_dev)
           ++ [ev_pm_device_action_run display_dev PM_DEVICE_ACTION_TURN_ON])
      else Returns (- EALREADY) s []
  | _, _ => Returns (- EALREADY) s []
  end.
Proof.
  unfold zsw_display_control_pwr_ctrl, regulator_cmd.
  unfold bind at 1. unfold get. cbv beta iota.
  destruct s as [[ | | ] fr lb], on; cbn [display_state]; try reflexivity;
    destruct (device_is_ready hw reg_dev); try reflexivity;
    destruct (CONFIG_BOARD_NATIVE_POSIX hw); reflexivity.
Qed.

(** [lvgl_render] in terms of the brightness request it contains. *)
Lemma lvgl_render_eq (hw : platform) (ms : Z) (s : state) :
  lvgl_render hw ms s =
  if first_render_since_poweron s then
    match zsw_display_control_set_brightness hw (last_brightness s) s with
    | Returns _ s' t =>
        Returns tt (with_first_render false s')
          ([ev_lv_task_handler] ++ t ++ [ev_k_work_schedule ms])
    | Panics s' t => Panics s' ([ev_lv_task_handler] ++ t)
    end
  else Returns tt s [ev_lv_task_handler; ev_k_work_schedule ms].
Proof.
  unfold lvgl_render.
  cbv beta iota delta [bind get put emit ret when set_first_render_since_poweron
                       with_first_render].
  destruct (first_render_since_poweron s); [ | reflexivity ].
  destruct (zsw_display_control_set_brightness hw (last_brightness s) s);
    cbn [app]; rewrite ?app_nil_r; reflexivity.
Qed.

(** The no-op rows of [zsw_display_control_sleep_ctrl]. *)
Lemma sleep_ctrl_noop_eq (hw : platform) (on : bool) (s : state) :
  snd (sleep_table (display_state s) on) <> Ok ->
  zsw_display_control_sleep_ctrl hw on s =
  Returns (code_of (snd (sleep_table (display_state s) on))) s [].
Proof.
  unfold zsw_display_control_sleep_ctrl. unfold bind at 1. unfold get.
  cbv beta iota.
  destruct (display_state s), on; cbn [sleep_table snd]; intros H;
    try reflexivity; congruence.
Qed.

(** The display state after [zsw_display_control_sleep_ctrl] is the table's,
    also when the brightness request inside fails its assertion. *)
Lemma sleep_ctrl_display_state (hw : platform) (on : bool) (s : state) :
  display_state (state_of (zsw_display_control_sleep_ctrl hw on s))
  = fst (sleep_table (display_state s) on).
Proof.
  destruct (display_state s) eqn:Hs, on; cbn [sleep_table fst];
    try (rewrite sleep_ctrl_noop_eq; rewrite Hs; cbn; [ auto | discriminate ]).
  - rewrite (sleep_ctrl_sleep_eq hw s Hs). cbv zeta.
    pose proof (set_brightness_display_state hw 0
                  (with_display_state DISPLAY_STATE_SLEEPING s)) as H.
    destruct (zsw_display_control_set_brightness hw 0 _); exact H.
  - rewrite (sleep_ctrl_wake_eq hw s Hs). cbv zeta.
    destruct (first_render_since_poweron s); [ reflexivity | ].
    pose proof (set_brightness_display_state hw (last_brightness s)
                  (with_display_state DISPLAY_STATE_AWAKE s)) as H.
    destruct (zsw_display_control_set_brightness hw _ _); exact H.
Qed.

Lemma set_brightness_remembered (hw : platform) (percent : Z) (s : state) :
  brightness_remembered s ->
  brightness_remembered (state_of (zsw_display_control_set_brightness hw percent s)).
Proof.
  unfold brightness_remembered. intros H.
  pose proof (uint8_t_range percent) as Hr.
  destruct (set_brightness_last_brightness hw percent s) as [E | [E Hn]];
    rewrite E; lia.
Qed.

Lemma sleep_ctrl_remembered (hw : platform) (on : bool) (s : state) :
  brightness_remembered s ->
  brightness_remembered (state_of (zsw_display_control_sleep_ctrl hw on s)).
Proof.
  intros H.
  destruct (display_state s) eqn:Hs, on;
    try (rewrite sleep_ctrl_noop_eq; [ exact H | rewrite Hs; discriminate ]).
  - rewrite (sleep_ctrl_sleep_eq hw s Hs). cbv zeta.
    pose proof (set_brightness_remembered hw 0
                  (with_display_state DISPLAY_STATE_SLEEPING s) H) as H'.
    destruct (zsw_display_control_set_brightness hw 0 _); exact H'.
  - rewrite (sleep_ctrl_wake_eq hw s Hs). cbv zeta.
    destruct (first_render_since_poweron s); [ exact H | ].
    pose proof (set_brightness_remembered hw (last_brightness s)
                  (with_display_state DISPLAY_STATE_AWAKE s) H) as H'.
    destruct (zsw_display_control_set_brightness hw _ _); exact H'.
Qed.

Lemma pwr_ctrl_last_brightness (hw : platform) (on : bool) (s : state) :
  last_brightness (state_of (zsw_display_control_pwr_ctrl hw on s))
  = last_brightness s.
Proof.
  rewrite pwr_ctrl_eq.
  destruct (display_state s), on, (device_is_ready hw reg_dev); reflexivity.
Qed.

Lemma lvgl_render_remembered (hw : platform) (ms : Z) (s : state) :
  brightness_remembered s ->
  brightness_remembered (state_of (lvgl_render hw ms s)).
Proof.
  intros H. rewrite lvgl_render_eq.
  destruct (first_render_since_poweron s); [ | exact H ].
  pose proof (set_brightness_remembered hw (last_brightness s) s H) as H'.
  destruct (zsw_display_control_set_brightness hw _ _); exact H'.
Qed.

Lemma lvgl_render_display_state (hw : platform) (ms : Z) (s : state) :
  display_state (state_of (lvgl_render hw ms s)) = display_state s.
Proof.
  rewrite lvgl_render_eq.
  destruct (first_render_since_poweron s); [ | reflexivity ].
  pose proof (set_brightness_display_state hw (last_brightness s) s) as H'.
  destruct (zsw_display_control_set_brightness hw _ _); exact H'.
Qed.

Lemma state_of_discard {A} (m : M A) (s : state) :
  state_of (discard m s) = state_of (m s).
Proof. unfold discard. destruct (m s); reflexivity. Qed.

Lemma state_of_bind {A B} (m : M A) (k : A -> M B) (s : state) :
  state_of (bind m k s) =
  match m s with
  | Returns a s1 _ => state_of (k a s1)
  | Panics s1 _ => s1
  end.
Proof.
  unfold bind. destruct (m s) as [a s1 t1 | s1 t1]; [ | reflexivity ].
  destruct (k a s1); reflexivity.
Qed.

Lemma step_remembered (hw : platform) (o : op) (s : state) :
  brightness_remembered s -> brightness_remembered (state_of (step hw o s)).
Proof.
  intros H. destruct o; cbn [step]; rewrite ?state_of_discard.
  - exact H.
  - apply sleep_ctrl_remembered, H.
  - unfold brightness_remembered. rewrite pwr_ctrl_last_brightness. exact H.
  - apply set_brightness_remembered, H.
  - exact H.
  - apply lvgl_render_remembered, H.
Qed.

Lemma run_remembered (hw : platform) (ops : list op) :
  forall s, brightness_remembered s ->
            brightness_remembered (state_of (run hw ops s)).
Proof.
  induction ops as [ | o ops IH]; intros s H; cbn [run].
  - exact H.
  - rewrite state_of_bind.
    pose proof (step_remembered hw o s H) as Hs.
    destruct (step hw o s) as [[] s1 t1 | s1 t1]; cbn [state_of] in Hs.
    + apply IH, Hs.
    + exact Hs.
Qed.

(** No call moves the display state between [Awake] and [PoweredOff]. *)
Lemma step_no_direct_jump (hw : platform) (o : op) (s : state) :
  direct_jump (display_state s) (display_state (state_of (step hw o s))) = false.
Proof.
  destruct o; cbn [step]; rewrite ?state_of_discard.
  - destruct (display_state s); reflexivity.
  - rewrite sleep_ctrl_display_state. destruct (display_state s), on; reflexivity.
  - rewrite pwr_ctrl_eq.
    destruct (display_state s) eqn:E, on, (device_is_ready hw reg_dev);
      cbn; rewrite ?E; reflexivity.
  - rewrite set_brightness_display_state. destruct (display_state s); reflexivity.
  - cbn. destruct (display_state s); reflexivity.
  - rewrite lvgl_render_display_state. destruct (display_state s); reflexivity.
Qed.

(** ** The sleep transition table *)

(** C1. For every current state, [zsw_display_control_sleep_ctrl on] returns
    the result and reaches the state the sleep transition table gives:
    Awake/on and Sleeping/off are no-ops with [-EALREADY], Awake/off moves to
    Sleeping with 0, Sleeping/on moves to Awake with 0, PoweredOff is a no-op
    with [-EIO] for both arguments; in every no-op row the whole state is
    unchanged and nothing is issued.  The hypothesis says that the brightness
    request made by a transition passes the assertions of
    [zsw_display_control_set_brightness]; it holds for every no-op row. *)
Theorem sleep_ctrl_follows_table (hw : platform) (on : bool) (s : state) :
  sleep_call_ok hw on s = true ->
  exists s' t,
    zsw_display_control_sleep_ctrl hw on s
    = Returns (code_of (snd (sleep_table (display_state s) on))) s' t
    /\ display_state s' = fst (sleep_table (display_state s) on)
    /\ (snd (sleep_table (display_state s) on) <> Ok -> s' = s /\ t = []).
Proof.
  intros Hok.
  assert (Hnoop : snd (sleep_table (display_state s) on) <> Ok ->
                  exists s' t,
                    zsw_display_control_sleep_ctrl hw on s
                    = Returns (code_of (snd (sleep_table (display_state s) on))) s' t
                    /\ display_state s' = fst (sleep_table (display_state s) on)
                    /\ (snd (sleep_table (display_state s) on) <> Ok
                        -> s' = s /\ t = [])).
  { intros Hn. exists s, []. split; [ apply sleep_ctrl_noop_eq, Hn | ].
    split; [ | auto ].
    destruct (display_state s), on; cbn in Hn |- *; congruence. }
  unfold sleep_call_ok in Hok.
  destruct (display_state s) eqn:Hs, on;
    try (apply Hnoop; cbn; discriminate); clear Hnoop; cbn [sleep_table fst snd].
  - rewrite (sleep_ctrl_sleep_eq hw s Hs). cbv zeta.
    rewrite (set_brightness_ok_eq hw 0 _ Hok).
    eexists; eexists. split; [ reflexivity | ].
    split; [ | intros H; congruence ].
    destruct (device_is_ready hw display_blk); reflexivity.
  - rewrite (sleep_ctrl_wake_eq hw s Hs). cbv zeta.
    destruct (first_render_since_poweron s); cbn [orb] in Hok.
    + eexists; eexists. split; [ reflexivity | ].
      split; [ reflexivity | intros H; congruence ].
    + rewrite (set_brightness_ok_eq hw _ _ Hok).
      eexists; eexists. split; [ reflexivity | ].
      split; [ | intros H; congruence ].
      destruct (device_is_ready hw display_blk);
        rewrite ?remember_display_state; reflexivity.
Qed.

Lemma sleep_ctrl_follows_table_witness :
  sleep_call_ok watch false (state_in DISPLAY_STATE_AWAKE) = true
  /\ exists s' t,
       zsw_display_control_sleep_ctrl watch false (state_in DISPLAY_STATE_AWAKE)
       = Returns 0 s' t
       /\ display_state s' = DISPLAY_STATE_SLEEPING
       /\ (Ok <> Ok -> s' = state_in DISPLAY_STATE_AWAKE /\ t = []).
Proof.
  split; [ reflexivity | ].
  apply (sleep_ctrl_follows_table watch false (state_in DISPLAY_STATE_AWAKE)).
  reflexivity.
Defined.

(** ** The power transition table *)

(** C2, as the claim states it, fails: with the regulator not ready, a
    power-off request in Sleeping is refused with [-EALREADY], not with the
    [-EIO] the table of the specification gives. *)
Lemma pwr_ctrl_refusal_not_EIO :
  device_is_ready no_regulator reg_dev = false
  /\ zsw_display_control_pwr_ctrl no_regulator false (state_in DISPLAY_STATE_SLEEPING)
     = Returns (- EALREADY) (state_in DISPLAY_STATE_SLEEPING) []
  /\ result_of (zsw_display_control_pwr_ctrl no_regulator false
                  (state_in DISPLAY_STATE_SLEEPING))
     <> Some (code_of (snd (pwr_table_spec (device_is_ready no_regulator reg_dev)
                              DISPLAY_STATE_SLEEPING false))).
Proof.
  split; [ reflexivity | ]. split; [ reflexivity | ].
  vm_compute. discriminate.
Qed.

(** C2, amended. For every current state, [zsw_display_control_pwr_ctrl on]
    follows the power transition table: from Sleeping with [on = false] and
    the regulator ready, the state becomes PoweredOff, the regulator is
    disabled (a command compiled out on the native POSIX board), the panel
    turn-off action is issued and 0 is returned; from PoweredOff with
    [on = true] and the regulator ready, the state becomes Sleeping, the
    regulator is enabled (likewise), the panel turn-on action is issued,
    [first_render_since_poweron] is set and 0 is returned; every other
    combination, a regulator that is not ready included, is a no-op returning
    [-EALREADY]. *)
Theorem pwr_ctrl_follows_table (hw : platform) (on : bool) (s : state) :
  match display_state s, on with
  | DISPLAY_STATE_SLEEPING, false =>
      if device_is_ready hw reg_dev then
        zsw_display_control_pwr_ctrl hw on s
        = Returns (code_of Ok) (with_display_state DISPLAY_STATE_POWERED_OFF s)
            (regulator_cmd hw (ev_regulator_disable reg_dev)
             ++ [ev_pm_device_action_run display_dev PM_DEVICE_ACTION_TURN_OFF])
      else
        zsw_display_control_pwr_ctrl hw on s = Returns (code_of AlreadyInState) s []
  | DISPLAY_STATE_POWERED_OFF, true =>
      if device_is_ready hw reg_dev then
        zsw_display_control_pwr_ctrl hw on s
        = Returns (code_of Ok)
            (with_first_render true (with_display_state DISPLAY_STATE_SLEEPING s))
            (regulator_cmd hw (ev_regulator_enable reg_dev)
             ++ [ev_pm_device_action_run display_dev PM_DEVICE_ACTION_TURN_ON])
      else
        zsw_display_control_pwr_ctrl hw on s = Returns (code_of AlreadyInState) s []
  | _, _ =>
      zsw_display_control_pwr_ctrl hw on s = Returns (code_of AlreadyInState) s []
  end.
Proof.
  rewrite pwr_ctrl_eq.
  destruct (display_state s), on, (device_is_ready hw reg_dev); reflexivity.
Qed.

(** The amended table agrees with the specification's in every row but the
    refusal result. *)
Lemma pwr_ctrl_result_table (hw : platform) (on : bool) (s : state) :
  let row := pwr_table_with AlreadyInState (device_is_ready hw reg_dev)
               (display_state s) on in
  result_of (zsw_display_control_pwr_ctrl hw on s) = Some (code_of (snd row))
  /\ display_state (state_of (zsw_display_control_pwr_ctrl hw on s)) = fst row.
Proof.
  cbv zeta. rewrite pwr_ctrl_eq.
  destruct (display_state s) eqn:E, on, (device_is_ready hw reg_dev);
    cbn; rewrite ?E; split; reflexivity.
Qed.

(** ** Refusals *)

Lemma pwr_ctrl_never_EIO (hw : platform) (on : bool) (s : state) :
  result_of (zsw_display_control_pwr_ctrl hw on s) <> Some (- EIO).
Proof.
  rewrite pwr_ctrl_eq.
  destruct (display_state s), on, (device_is_ready hw reg_dev);
    cbn; discriminate.
Qed.

(** A power request with the regulator not ready changes and issues nothing. *)
Lemma pwr_ctrl_regulator_not_ready (hw : platform) (on : bool) (s : state) :
  device_is_ready hw reg_dev = false ->
  zsw_display_control_pwr_ctrl hw on s = Returns (- EALREADY) s [].
Proof.
  intros H. rewrite pwr_ctrl_eq, H.
  destruct (display_state s), on; reflexivity.
Qed.

(** C3. A call of [zsw_display_control_sleep_ctrl] or
    [zsw_display_control_pwr_ctrl] that returns [-EIO] (HardwareUnavailable)
    leaves [display_state], [last_brightness] and
    [first_render_since_poweron] unchanged and issues no device action,
    regulator, backlight or scheduler command: its trace is empty. *)
Theorem refusal_has_no_effect (hw : platform) (tr : transition) (on : bool)
    (s : state) :
  result_of (request hw tr on s) = Some (code_of HardwareUnavailable) ->
  request hw tr on s = Returns (code_of HardwareUnavailable) s [].
Proof.
  destruct tr; cbn [request code_of]; intros H.
  - destruct (display_state s) eqn:Hs, on;
      try (rewrite sleep_ctrl_noop_eq in H |- *;
           rewrite ?Hs in *; cbn in H |- *; (discriminate || reflexivity)).
    + rewrite (sleep_ctrl_sleep_eq hw s Hs) in H. cbv zeta in H.
      destruct (zsw_display_control_set_brightness hw 0 _); discriminate H.
    + rewrite (sleep_ctrl_wake_eq hw s Hs) in H. cbv zeta in H.
      destruct (first_render_since_poweron s); [ discriminate H | ].
      destruct (zsw_display_control_set_brightness hw _ _); discriminate H.
  - exfalso. exact (pwr_ctrl_never_EIO hw on s H).
Qed.

Lemma refusal_has_no_effect_witness :
  request watch sleep_ctrl true (state_in DISPLAY_STATE_POWERED_OFF)
  = Returns (- EIO) (state_in DISPLAY_STATE_POWERED_OFF) [].
Proof.
  apply (refusal_has_no_effect watch sleep_ctrl true
           (state_in DISPLAY_STATE_POWERED_OFF)).
  reflexivity.
Defined.

(** ** Brightness restore after power-on *)

(** C4. After a power-on ([zsw_display_control_pwr_ctrl true] from
    PoweredOff, regulator ready) has set [first_render_since_poweron], the
    next wake ([zsw_display_control_sleep_ctrl true]) issues no backlight
    command; the first run of [lvgl_render] then issues the backlight command
    for [last_brightness] and clears the flag.  A wake with the flag clear
    issues the backlight command for [last_brightness] during the transition.
    The hypotheses say that [last_brightness] is a [uint8_t] and that the
    restoring request passes the assertions of
    [zsw_display_control_set_brightness]. *)
Theorem brightness_restore_deferred_after_poweron (hw : platform) (s : state)
    (ms : Z) :
  0 <= last_brightness s < 256 ->
  brightness_call_ok hw (last_brightness s) = true ->
  (display_state s = DISPLAY_STATE_POWERED_OFF ->
   device_is_ready hw reg_dev = true ->
   let s1 := with_first_render true (with_display_state DISPLAY_STATE_SLEEPING s) in
   let s2 := with_first_render true (with_display_state DISPLAY_STATE_AWAKE s) in
   let s3 := with_first_render false (with_display_state DISPLAY_STATE_AWAKE s) in
   let t2 := [ev_pm_device_action_run display_dev PM_DEVICE_ACTION_RESUME]
             ++ touch_cmd hw PM_DEVICE_ACTION_RESUME
             ++ [ev_display_blanking_off display_dev; ev_k_work_schedule 250] in
   (exists t1, zsw_display_control_pwr_ctrl hw true s = Returns 0 s1 t1)
   /\ zsw_display_control_sleep_ctrl hw true s1 = Returns 0 s2 t2
   /\ existsb (targets display_blk) t2 = false
   /\ lvgl_render hw ms s2
      = Returns tt s3
          ([ev_lv_task_handler] ++ backlight_cmd hw (last_brightness s)
           ++ [ev_k_work_schedule ms]))
  /\ (display_state s = DISPLAY_STATE_SLEEPING ->
      first_render_since_poweron s = false ->
      zsw_display_control_sleep_ctrl hw true s
      = Returns 0 (with_display_state DISPLAY_STATE_AWAKE s)
          ([ev_pm_device_action_run display_dev PM_DEVICE_ACTION_RESUME]
           ++ touch_cmd hw PM_DEVICE_ACTION_RESUME
           ++ backlight_cmd hw (last_brightness s)
           ++ [ev_display_blanking_off display_dev; ev_k_work_schedule 250])).
Proof.
  intros Hrange Hok. split.
  - intros Hs Hreg. cbv zeta. repeat split.
    + rewrite pwr_ctrl_eq, Hs, Hreg. eexists. reflexivity.
    + rewrite sleep_ctrl_wake_eq by reflexivity. reflexivity.
    + unfold touch_cmd. destruct (device_is_ready hw touch_dev); reflexivity.
    + rewrite lvgl_render_eq. cbn [with_first_render first_render_since_poweron].
      cbn [with_display_state last_brightness display_state].
      rewrite (set_brightness_ok_eq hw _ _ Hok).
      rewrite (remember_same _ _ Hrange) by reflexivity.
      destruct (device_is_ready hw display_blk); reflexivity.
  - intros Hs Hfr.
    rewrite (sleep_ctrl_wake_eq hw s Hs). cbv zeta. rewrite Hfr.
    rewrite (set_brightness_ok_eq hw _ _ Hok).
    rewrite (remember_same _ _ Hrange) by reflexivity.
    rewrite <- app_assoc.
    destruct (device_is_ready hw display_blk); reflexivity.
Qed.

Lemma brightness_restore_deferred_after_poweron_witness :
  ((exists t1,
      zsw_display_control_pwr_ctrl watch true (state_in DISPLAY_STATE_POWERED_OFF)
      = Returns 0 (with_first_render true (state_in DISPLAY_STATE_SLEEPING)) t1)
   /\ zsw_display_control_sleep_ctrl watch true
        (with_first_render true (state_in DISPLAY_STATE_SLEEPING))
      = Returns 0 (with_first_render true (state_in DISPLAY_STATE_AWAKE))
          [ev_pm_device_action_run display_dev PM_DEVICE_ACTION_RESUME;
           ev_pm_device_action_run touch_dev PM_DEVICE_ACTION_RESUME;
           ev_display_blanking_off display_dev; ev_k_work_schedule 250]
   /\ existsb (targets display_blk)
        [ev_pm_device_action_run display_dev PM_DEVICE_ACTION_RESUME;
         ev_pm_device_action_run touch_dev PM_DEVICE_ACTION_RESUME;
         ev_display_blanking_off display_dev; ev_k_work_schedule 250] = false
   /\ lvgl_render watch 16 (with_first_render true (state_in DISPLAY_STATE_AWAKE))
      = Returns tt (state_in DISPLAY_STATE_AWAKE)
          [ev_lv_task_handler; ev_pwm_set_pulse_dt 300000; ev_k_work_schedule 16])
  /\ zsw_display_control_sleep_ctrl watch true (state_in DISPLAY_STATE_SLEEPING)
     = Returns 0 (state_in DISPLAY_STATE_AWAKE)
         [ev_pm_device_action_run display_dev PM_DEVICE_ACTION_RESUME;
          ev_pm_device_action_run touch_dev PM_DEVICE_ACTION_RESUME;
          ev_pwm_set_pulse_dt 300000;
          ev_display_blanking_off display_dev; ev_k_work_schedule 250].
Proof.
  split.
  - apply (brightness_restore_deferred_after_poweron watch
             (state_in DISPLAY_STATE_POWERED_OFF) 16);
      [ cbn; lia | reflexivity | reflexivity | reflexivity ].
  - apply (brightness_restore_deferred_after_poweron watch
             (state_in DISPLAY_STATE_SLEEPING) 16);
      [ cbn; lia | reflexivity | reflexivity | reflexivity ].
Defined.

(** ** The remembered brightness *)

Lemma set_brightness_0_last_brightness (hw : platform) (s : state) :
  last_brightness (state_of (zsw_display_control_set_brightness hw 0 s))
  = last_brightness s.
Proof.
  destruct (set_brightness_last_brightness hw 0 s) as [E | [_ Hn]];
    [ exact E | exfalso; apply Hn; reflexivity ].
Qed.

Lemma sleep_ctrl_sleep_last_brightness (hw : platform) (s : state) :
  last_brightness (state_of (zsw_display_control_sleep_ctrl hw false s))
  = last_brightness s.
Proof.
  destruct (display_state s) eqn:Hs;
    try (rewrite sleep_ctrl_noop_eq; [ reflexivity | rewrite Hs; discriminate ]).
  rewrite (sleep_ctrl_sleep_eq hw s Hs). cbv zeta.
  pose proof (set_brightness_0_last_brightness hw
                (with_display_state DISPLAY_STATE_SLEEPING s)) as H.
  destruct (zsw_display_control_set_brightness hw 0 _); exact H.
Qed.

(** A nonzero request that reaches the backlight is remembered, whatever was
    stored before. *)
Lemma nonzero_request_remembered (hw : platform) (percent : Z) (s : state) :
  device_is_ready hw display_blk = true ->
  uint8_t percent <> 0 ->
  CONFIG_ASSERT hw = false \/ uint8_t percent <= 100 ->
  brightness_remembered (state_of (zsw_display_control_set_brightness hw percent s)).
Proof.
  intros Hr Hn Ha. rewrite set_brightness_eq, Hr. cbn [negb].
  pose proof (uint8_t_range percent) as Hrange.
  assert (E : CONFIG_ASSERT hw && negb (uint8_t percent <=? 100) = false).
  { destruct Ha as [Ha | Ha]; [ rewrite Ha; reflexivity | ].
    apply Z.leb_le in Ha. rewrite Ha. apply andb_false_r. }
  rewrite E.
  assert (R : brightness_remembered (remember percent s)).
  { unfold remember, brightness_remembered.
    destruct (uint8_t percent =? 0) eqn:E0;
      [ apply Z.eqb_eq in E0; contradiction | cbn; lia ]. }
  clear E.
  destruct (CONFIG_ASSERT hw && negb (pwm_set_pulse_dt hw _ =? 0)); exact R.
Qed.

(** C5. From the boot state ([last_brightness = 30]), after every sequence
    of calls (init, brightness requests, sleep and power requests, render
    passes), [zsw_display_control_get_brightness] returns a nonzero value;
    a request for 0 percent leaves [last_brightness] as it is, and so does
    the sleep transition, which requests 0 percent. *)
Theorem get_brightness_never_zero (hw : platform) (ops : list op) :
  (exists b,
     zsw_display_control_get_brightness (state_of (run hw ops boot_state))
     = Returns b (state_of (run hw ops boot_state)) []
     /\ b <> 0 /\ 1 <= b <= 255)
  /\ (forall s,
        last_brightness (state_of (zsw_display_control_set_brightness hw 0 s))
        = last_brightness s)
  /\ (forall s,
        last_brightness (state_of (zsw_display_control_sleep_ctrl hw false s))
        = last_brightness s).
Proof.
  split; [ | split ].
  - exists (last_brightness (state_of (run hw ops boot_state))).
    split; [ reflexivity | ].
    assert (H : brightness_remembered (state_of (run hw ops boot_state))).
    { apply run_remembered. unfold brightness_remembered. cbn. lia. }
    unfold brightness_remembered in H. lia.
  - apply set_brightness_0_last_brightness.
  - apply sleep_ctrl_sleep_last_brightness.
Qed.

(** The same from any state, once a nonzero request has reached the
    backlight. *)
Lemma never_zero_after_nonzero_request (hw : platform) (percent : Z)
    (ops : list op) (s : state) :
  device_is_ready hw display_blk = true ->
  uint8_t percent <> 0 ->
  CONFIG_ASSERT hw = false \/ uint8_t percent <= 100 ->
  last_brightness (state_of (run hw (op_set_brightness percent :: ops) s)) <> 0.
Proof.
  intros Hr Hn Ha. cbn [run step]. rewrite state_of_bind.
  pose proof (nonzero_request_remembered hw percent s Hr Hn Ha) as H.
  destruct (zsw_display_control_set_brightness hw percent s) as [[] s1 t1 | s1 t1];
    cbn [state_of] in H.
  - pose proof (run_remembered hw ops s1 H) as H'.
    unfold brightness_remembered in H'. lia.
  - unfold brightness_remembered in H. lia.
Qed.

(** ** Awake and PoweredOff are never adjacent *)

Lemma trajectory_head (hw : platform) (ops : list op) (s : state) :
  exists tl, trajectory hw ops s = s :: tl.
Proof. destruct ops; cbn [trajectory]; eexists; reflexivity. Qed.

Lemma trajectory_no_direct_jumps (hw : platform) (ops : list op) :
  forall s, no_direct_jumps (trajectory hw ops s) = true.
Proof.
  induction ops as [ | o ops IH]; intros s; [ reflexivity | ].
  cbn [trajectory].
  pose proof (step_no_direct_jump hw o s) as Hj.
  destruct (step hw o s) as [[] s1 t1 | s1 t1]; cbn [state_of] in Hj.
  - destruct (trajectory_head hw ops s1) as [tl E].
    pose proof (IH s1) as H1. rewrite E in H1 |- *.
    cbn [no_direct_jumps]. rewrite Hj. cbn [negb andb]. exact H1.
  - cbn [no_direct_jumps]. rewrite Hj. reflexivity.
Qed.

(** C6. Along every sequence of calls from every state, two consecutive
    display states are never Awake and PoweredOff, in either order; no single
    call makes such a step; and [zsw_display_control_pwr_ctrl false] in Awake
    changes nothing and returns [-EALREADY]. *)
Theorem no_step_between_awake_and_powered_off (hw : platform) (ops : list op)
    (s : state) :
  no_direct_jumps (trajectory hw ops s) = true
  /\ (forall o,
        direct_jump (display_state s) (display_state (state_of (step hw o s)))
        = false)
  /\ zsw_display_control_pwr_ctrl hw false (with_display_state DISPLAY_STATE_AWAKE s)
     = Returns (code_of AlreadyInState) (with_display_state DISPLAY_STATE_AWAKE s) [].
Proof.
  split; [ apply trajectory_no_direct_jumps | ].
  split; [ intros o; apply step_no_direct_jump | ].
  rewrite pwr_ctrl_eq. reflexivity.
Qed.

(** ** Components that are not ready *)

Lemma set_brightness_with_ready (hw : platform) (d : device) (b : bool)
    (percent : Z) (s : state) :
  d <> display_blk ->
  zsw_display_control_set_brightness (with_ready hw d b) percent s
  = zsw_display_control_set_brightness hw percent s.
Proof.
  intros Hd. rewrite !set_brightness_eq.
  destruct d; try contradiction; reflexivity.
Qed.

(** C7, as the claim states it, fails: with the display panel not ready, the
    sleep transition still issues the blanking call and the suspend action to
    the panel. *)
Lemma panel_commands_issued_when_not_ready :
  device_is_ready no_panel display_dev = false
  /\ zsw_display_control_sleep_ctrl no_panel false (state_in DISPLAY_STATE_AWAKE)
     = Returns 0 (state_in DISPLAY_STATE_SLEEPING)
         [ev_display_blanking_on display_dev;
          ev_pm_device_action_run display_dev PM_DEVICE_ACTION_SUSPEND;
          ev_pm_device_action_run touch_dev PM_DEVICE_ACTION_SUSPEND;
          ev_pwm_set_pulse_dt 0;
          ev_k_work_cancel_delayable_sync;
          ev_lv_obj_invalidate]
  /\ existsb (targets display_dev)
       (trace_of (zsw_display_control_sleep_ctrl no_panel false
                    (state_in DISPLAY_STATE_AWAKE))) = true.
Proof. repeat split. Qed.

(** C7, amended. A not-ready backlight turns
    [zsw_display_control_set_brightness] into a call that changes nothing and
    issues nothing, so [zsw_display_control_get_brightness] is unaffected; a
    not-ready touch controller removes exactly the touch suspend/resume
    action from a sleep or wake transition, whose result, state and other
    commands stay the same; the readiness of the display panel is consulted
    by no call: blanking, suspend/resume and turn-on/turn-off are issued to
    the panel whether it is ready or not. *)
Theorem not_ready_components (hw : platform) (s : state) :
  (forall percent,
     zsw_display_control_set_brightness (with_ready hw display_blk false) percent s
     = Returns tt s [])
  /\ (forall on,
        let absent :=
          zsw_display_control_sleep_ctrl (with_ready hw touch_dev false) on s in
        let present :=
          zsw_display_control_sleep_ctrl (with_ready hw touch_dev true) on s in
        result_of absent = result_of present
        /\ state_of absent = state_of present
        /\ trace_of absent
           = filter (fun e => negb (targets touch_dev e)) (trace_of present))
  /\ (forall b o, step (with_ready hw display_dev b) o s = step hw o s).
Proof.
  split; [ | split ].
  - intros percent. rewrite set_brightness_eq. reflexivity.
  - intros on. cbv zeta.
    destruct (display_state s) eqn:Hs, on;
      try (rewrite !sleep_ctrl_noop_eq by (rewrite Hs; discriminate);
           repeat split).
    + rewrite !(sleep_ctrl_sleep_eq _ s Hs). cbv zeta.
      rewrite !set_brightness_with_ready by discriminate.
      rewrite set_brightness_eq.
      brightness_cases hw 0;
        repeat split.
    + rewrite !(sleep_ctrl_wake_eq _ s Hs). cbv zeta.
      destruct (first_render_since_poweron s); [ repeat split | ].
      rewrite !set_brightness_with_ready by discriminate.
      rewrite set_brightness_eq.
      brightness_cases hw (last_brightness s);
        repeat split.
  - intros b o. destruct o; reflexivity.
Qed.

(** ** The duty cycle *)

(** C8, as the claim states it, fails: for a period of 150 and 100 percent
    the driver commands a pulse width of 100, not the full period 150. *)
Lemma pulse_width_truncates :
  zsw_display_control_set_brightness odd_period 100 boot_state
  = Returns tt (remember 100 boot_state) [ev_pwm_set_pulse_dt 100]
  /\ 100 * period odd_period / 100 = 150
  /\ trace_of (zsw_display_control_set_brightness odd_period 100 boot_state)
     <> [ev_pwm_set_pulse_dt (100 * period odd_period / 100)].
Proof.
  split; [ reflexivity | ]. split; [ reflexivity | ].
  vm_compute. discriminate.
Qed.

(** C8, amended. For every percent in [0,100] and every native period (a
    [uint32_t]), with the backlight ready,
    [zsw_display_control_set_brightness] commands the pulse width
    [percent * (period / 100)], the division being the integer division and
    taken first: 0 for 0 percent, [period - period mod 100] for 100 percent,
    and [percent * period / 100] exactly when the period is a multiple of
    100; in general it is [percent * period / 100] less
    [percent * (period mod 100) / 100]. *)
Theorem set_brightness_pulse_width (hw : platform) (percent : Z) (s : state) :
  device_is_ready hw display_blk = true ->
  0 <= percent <= 100 ->
  0 <= period hw < 2 ^ 32 ->
  trace_of (zsw_display_control_set_brightness hw percent s)
  = [ev_pwm_set_pulse_dt (percent * (period hw / 100))]
  /\ (period hw mod 100 = 0 ->
      percent * (period hw / 100) = percent * period hw / 100)
  /\ percent * (period hw / 100)
     = percent * period hw / 100 - percent * (period hw mod 100) / 100
  /\ (percent = 0 -> percent * (period hw / 100) = 0)
  /\ (percent = 100 -> percent * (period hw / 100) = period hw - period hw mod 100).
Proof.
  intros Hr Hp Hper.
  assert (Hdiv : period hw = 100 * (period hw / 100) + period hw mod 100)
    by (apply Z.div_mod; lia).
  pose proof (Z.mod_pos_bound (period hw) 100 ltac:(lia)) as Hm.
  assert (Hq : 0 <= period hw / 100) by (apply Z.div_pos; lia).
  assert (Hgen : percent * (period hw / 100)
                 = percent * period hw / 100 - percent * (period hw mod 100) / 100).
  { rewrite Hdiv at 2.
    replace (percent * (100 * (period hw / 100) + period hw mod 100))
      with (percent * (period hw / 100) * 100 + percent * (period hw mod 100))
      by ring.
    rewrite Z.div_add_l by lia. lia. }
  split; [ | split; [ | split; [ exact Hgen | split ] ] ].
  - rewrite set_brightness_eq, Hr. cbn [negb].
    assert (E8 : uint8_t percent = percent) by (apply uint8_t_small; lia).
    rewrite E8.
    assert (Ele : (percent <=? 100) = true) by (apply Z.leb_le; lia).
    rewrite Ele, andb_false_r.
    assert (E32 : pulse_width hw percent = percent * (period hw / 100)).
    { unfold pulse_width, uint32_t. apply Z.mod_small. nia. }
    rewrite E32.
    destruct (CONFIG_ASSERT hw && negb _); reflexivity.
  - intros H0. rewrite Hgen, H0, Z.mul_0_r. cbn. lia.
  - intros ->. lia.
  - intros ->. lia.
Qed.

Lemma set_brightness_pulse_width_witness :
  trace_of (zsw_display_control_set_brightness odd_period 100 boot_state)
  = [ev_pwm_set_pulse_dt (100 * (period odd_period / 100))]
  /\ (period odd_period mod 100 = 0 ->
      100 * (period odd_period / 100) = 100 * period odd_period / 100)
  /\ 100 * (period odd_period / 100)
     = 100 * period odd_period / 100 - 100 * (period odd_period mod 100) / 100
  /\ (100 = 0 -> 100 * (period odd_period / 100) = 0)
  /\ (100 = 100 ->
      100 * (period odd_period / 100) = period odd_period - period odd_period mod 100).
Proof.
  apply (set_brightness_pulse_width odd_period 100 boot_state);
    [ reflexivity | lia | cbn; lia ].
Defined.

(** ** Return code and state change *)

Lemma sleep_ctrl_result (hw : platform) (on : bool) (s : state) (r : Z) :
  result_of (zsw_display_control_sleep_ctrl hw on s) = Some r ->
  r = code_of (snd (sleep_table (display_state s) on)).
Proof.
  destruct (display_state s) eqn:Hs, on;
    try (rewrite sleep_ctrl_noop_eq by (rewrite Hs; discriminate);
         rewrite Hs; cbn; congruence).
  - rewrite (sleep_ctrl_sleep_eq hw s Hs). cbv zeta.
    destruct (zsw_display_control_set_brightness hw 0 _); cbn; congruence.
  - rewrite (sleep_ctrl_wake_eq hw s Hs). cbv zeta.
    destruct (first_render_since_poweron s); [ cbn; congruence | ].
    destruct (zsw_display_control_set_brightness hw _ _); cbn; congruence.
Qed.

(** C9. A call of [zsw_display_control_sleep_ctrl] or
    [zsw_display_control_pwr_ctrl] returns 0 if and only if it changed
    [display_state]; after a non-zero return [display_state] has its value at
    entry. *)
Theorem zero_iff_state_changed (hw : platform) (tr : transition) (on : bool)
    (s s' : state) (r : Z) (t : trace) :
  request hw tr on s = Returns r s' t ->
  (r = 0 <-> display_state s' <> display_state s)
  /\ (r <> 0 -> display_state s' = display_state s).
Proof.
  intros H.
  assert (Hr : result_of (request hw tr on s) = Some r) by (rewrite H; reflexivity).
  assert (Hd : display_state (state_of (request hw tr on s)) = display_state s')
    by (rewrite H; reflexivity).
  clear H. destruct tr; cbn [request] in Hr, Hd.
  - apply sleep_ctrl_result in Hr. rewrite sleep_ctrl_display_state in Hd.
    subst r. rewrite <- Hd.
    destruct (display_state s), on; cbn; (split; [ split | ]);
      intros; congruence.
  - destruct (pwr_ctrl_result_table hw on s) as [Hr' Hd'].
    rewrite Hr in Hr'. rewrite Hd in Hd'. injection Hr' as ->. rewrite Hd'.
    destruct (display_state s), on, (device_is_ready hw reg_dev); cbn;
      (split; [ split | ]); intros; congruence.
Qed.

Lemma zero_iff_state_changed_witness :
  (0 = 0 <->
   display_state (with_display_state DISPLAY_STATE_POWERED_OFF
                    (state_in DISPLAY_STATE_SLEEPING))
   <> display_state (state_in DISPLAY_STATE_SLEEPING))
  /\ (0 <> 0 ->
      display_state (with_display_state DISPLAY_STATE_POWERED_OFF
                       (state_in DISPLAY_STATE_SLEEPING))
      = display_state (state_in DISPLAY_STATE_SLEEPING)).
Proof.
  apply (zero_iff_state_changed watch pwr_ctrl false
           (state_in DISPLAY_STATE_SLEEPING)
           (with_display_state DISPLAY_STATE_POWERED_OFF
              (state_in DISPLAY_STATE_SLEEPING))
           0
           [ev_regulator_disable reg_dev;
            ev_pm_device_action_run display_dev PM_DEVICE_ACTION_TURN_OFF]).
  reflexivity.
Defined.

(** ** Readiness check before the range assertion *)

(** With the backlight ready and assertions compiled in, an out-of-range
    request fails the assertion before anything is changed or issued. *)
Lemma set_brightness_out_of_range_panics :
  zsw_display_control_set_brightness watch 200 boot_state = Panics boot_state [].
Proof. reflexivity. Qed.

(** C10. With the backlight not ready,
    [zsw_display_control_set_brightness] returns at once for every argument,
    values above 100 included and assertions compiled in or not: no assertion
    is reached, the state is unchanged and nothing is issued. *)
Theorem set_brightness_not_ready_returns (hw : platform) (percent : Z)
    (s : state) :
  device_is_ready hw display_blk = false ->
  zsw_display_control_set_brightness hw percent s = Returns tt s [].
Proof.
  intros H. unfold zsw_display_control_set_brightness. rewrite H. reflexivity.
Qed.

Lemma set_brightness_not_ready_returns_witness :
  CONFIG_ASSERT no_backlight = true
  /\ zsw_display_control_set_brightness no_backlight 200 boot_state
     = Returns tt boot_state [].
Proof.
  split; [ reflexivity | ].
  apply (set_brightness_not_ready_returns no_backlight 200 boot_state).
  reflexivity.
Defined.

(** ** Scenarios *)

(** Waking twice: the first call returns 0, the second [-EALREADY] and
    issues nothing. *)
Example wake_twice :
  let first := zsw_display_control_sleep_ctrl watch true (state_in DISPLAY_STATE_SLEEPING) in
  let second := zsw_display_control_sleep_ctrl watch true (state_of first) in
  result_of first = Some 0
  /\ second = Returns (- EALREADY) (state_in DISPLAY_STATE_AWAKE) [].
Proof. split; reflexivity. Qed.

(** Power off from Sleeping, then a wake request: refused with [-EIO]. *)
Example wake_while_powered_off :
  let off := zsw_display_control_pwr_ctrl watch false (state_in DISPLAY_STATE_SLEEPING) in
  let wake := zsw_display_control_sleep_ctrl watch true (state_of off) in
  off = Returns 0 (state_in DISPLAY_STATE_POWERED_OFF)
          [ev_regulator_disable reg_dev;
           ev_pm_device_action_run display_dev PM_DEVICE_ACTION_TURN_OFF]
  /\ wake = Returns (- EIO) (state_in DISPLAY_STATE_POWERED_OFF) [].
Proof. split; reflexivity. Qed.

(** Boot, init, a brightness request of 50 while asleep, a sleep/wake cycle:
    the wake restores 50 percent of the period. *)
Example brightness_survives_sleep :
  run watch [op_init; op_set_brightness 50; op_sleep_ctrl true;
             op_sleep_ctrl false; op_sleep_ctrl true] boot_state
  = Returns tt
      {| display_state := DISPLAY_STATE_AWAKE;
         first_render_since_poweron := false;
         last_brightness := 50 |}
      [ev_pwm_set_pulse_dt 500000;
       ev_pm_device_action_run display_dev PM_DEVICE_ACTION_RESUME;
       ev_pm_device_action_run touch_dev PM_DEVICE_ACTION_RESUME;
       ev_pwm_set_pulse_dt 500000;
       ev_display_blanking_off display_dev;
       ev_k_work_schedule 250;
       ev_display_blanking_on display_dev;
       ev_pm_device_action_run display_dev PM_DEVICE_ACTION_SUSPEND;
       ev_pm_device_action_run touch_dev PM_DEVICE_ACTION_SUSPEND;
       ev_pwm_set_pulse_dt 0;
       ev_k_work_cancel_delayable_sync;
       ev_lv_obj_invalidate;
       ev_pm_device_action_run display_dev PM_DEVICE_ACTION_RESUME;
       ev_pm_device_action_run touch_dev PM_DEVICE_ACTION_RESUME;
       ev_pwm_set_pulse_dt 500000;
       ev_display_blanking_off display_dev;
       ev_k_work_schedule 250].
Proof. reflexivity. Qed.

(** * Further properties of the driver *)

(** ** Projections of a sequenced computation *)

Lemma trace_of_bind {A B} (m : M A) (k : A -> M B) (s : state) :
  trace_of (bind m k s) =
  match m s with
  | Returns a s1 t1 => t1 ++ trace_of (k a s1)
  | Panics _ t1 => t1
  end.
Proof.
  unfold bind. destruct (m s) as [a s1 t1 | s1 t1]; [ | reflexivity ].
  destruct (k a s1); reflexivity.
Qed.

Lemma trace_of_discard {A} (m : M A) (s : state) :
  trace_of (discard m s) = trace_of (m s).
Proof. unfold discard. destruct (m s); reflexivity. Qed.



(** ** What a brightness request leaves alone *)

Lemma remember_first_render (p : Z) (s : state) :
  first_render_since_poweron (remember p s) = first_render_since_poweron s.
Proof. unfold remember. destruct (uint8_t p =? 0); reflexivity. Qed.

Lemma set_brightness_first_render (hw : platform) (percent : Z) (s : state) :
  first_render_since_poweron
    (state_of (zsw_display_control_set_brightness hw percent s))
  = first_render_since_poweron s.
Proof.
  rewrite set_brightness_eq.
  brightness_cases hw percent;
    cbn [negb andb state_of]; auto using remember_first_render.
Qed.

(** The state after [zsw_display_control_sleep_ctrl], in every row and also
    when the brightness request inside fails: the state after that request,
    made in the entry state with the table's display state. *)
Lemma sleep_ctrl_state_of (hw : platform) (on : bool) (s : state) :
  state_of (zsw_display_control_sleep_ctrl hw on s) =
  match display_state s, on with
  | DISPLAY_STATE_AWAKE, false =>
      state_of (zsw_display_control_set_brightness hw 0
                  (with_display_state DISPLAY_STATE_SLEEPING s))
  | DISPLAY_STATE_SLEEPING, true =>
      if first_render_since_poweron s
      then with_display_state DISPLAY_STATE_AWAKE s
      else state_of (zsw_display_control_set_brightness hw (last_brightness s)
                       (with_display_state DISPLAY_STATE_AWAKE s))
  | _, _ => s
  end.
Proof.
  destruct (display_state s) eqn:Hs, on;
    try (rewrite sleep_ctrl_noop_eq by (rewrite Hs; discriminate); reflexivity).
  - rewrite (sleep_ctrl_sleep_eq hw s Hs). cbv zeta.
    destruct (zsw_display_control_set_brightness hw 0 _); reflexivity.
  - rewrite (sleep_ctrl_wake_eq hw s Hs). cbv zeta.
    destruct (first_render_since_poweron s); [ reflexivity | ].
    destruct (zsw_display_control_set_brightness hw _ _); reflexivity.
Qed.

(** The trace of [zsw_display_control_sleep_ctrl], likewise. *)
Lemma sleep_ctrl_trace_of (hw : platform) (on : bool) (s : state) :
  exists pre post,
    trace_of (zsw_display_control_sleep_ctrl hw on s) =
    pre ++
    match display_state s, on with
    | DISPLAY_STATE_AWAKE, false =>
        trace_of (zsw_display_control_set_brightness hw 0
                    (with_display_state DISPLAY_STATE_SLEEPING s))
    | DISPLAY_STATE_SLEEPING, true =>
        if first_render_since_poweron s then []
        else trace_of (zsw_display_control_set_brightness hw (last_brightness s)
                         (with_display_state DISPLAY_STATE_AWAKE s))
    | _, _ => []
    end ++ post
    /\ existsb (targets display_blk) pre = false
    /\ existsb (targets display_blk) post = false.
Proof.
  destruct (display_state s) eqn:Hs, on;
    try (rewrite sleep_ctrl_noop_eq by (rewrite Hs; discriminate);
         exists [], []; repeat split).
  - rewrite (sleep_ctrl_sleep_eq hw s Hs). cbv zeta.
    destruct (zsw_display_control_set_brightness hw 0 _) as [[] s1 t1 | s1 t1];
      cbn [trace_of]; eexists; eexists;
      (split; [ reflexivity || (rewrite app_nil_r; reflexivity) | ]);
      unfold touch_cmd; destruct (device_is_ready hw touch_dev); split; reflexivity.
  - rewrite (sleep_ctrl_wake_eq hw s Hs). cbv zeta.
    destruct (first_render_since_poweron s).
    + cbn [trace_of]. exists ([ev_pm_device_action_run display_dev PM_DEVICE_ACTION_RESUME]
              ++ touch_cmd hw PM_DEVICE_ACTION_RESUME),
             [ev_display_blanking_off display_dev; ev_k_work_schedule 250].
      split; [ reflexivity | ].
      unfold touch_cmd; destruct (device_is_ready hw touch_dev); split; reflexivity.
    + destruct (zsw_display_control_set_brightness hw _ _) as [[] s1 t1 | s1 t1];
        cbn [trace_of]; eexists; eexists;
        (split; [ reflexivity || (rewrite app_nil_r; reflexivity) | ]);
        unfold touch_cmd; destruct (device_is_ready hw touch_dev); split; reflexivity.
Qed.

Lemma lvgl_render_state_of (hw : platform) (ms : Z) (s : state) :
  state_of (lvgl_render hw ms s) =
  if first_render_since_poweron s then
    match zsw_display_control_set_brightness hw (last_brightness s) s with
    | Returns _ s' _ => with_first_render false s'
    | Panics s' _ => s'
    end
  else s.
Proof.
  rewrite lvgl_render_eq.
  destruct (first_render_since_poweron s); [ | reflexivity ].
  destruct (zsw_display_control_set_brightness hw _ _); reflexivity.
Qed.

Lemma lvgl_render_trace_of (hw : platform) (ms : Z) (s : state) :
  exists post,
    trace_of (lvgl_render hw ms s) =
    [ev_lv_task_handler]
    ++ (if first_render_since_poweron s
        then trace_of (zsw_display_control_set_brightness hw (last_brightness s) s)
        else [])
    ++ post
    /\ existsb (targets display_blk) post = false.
Proof.
  rewrite lvgl_render_eq.
  destruct (first_render_since_poweron s).
  - destruct (zsw_display_control_set_brightness hw _ _) as [[] s1 t1 | s1 t1];
      cbn [trace_of].
    + exists [ev_k_work_schedule ms]. split; reflexivity.
    + exists []. rewrite app_nil_r. split; reflexivity.
  - exists [ev_k_work_schedule ms]. split; reflexivity.
Qed.

Lemma pwr_ctrl_trace_quiet (hw : platform) (on : bool) (s : state) :
  existsb (targets display_blk) (trace_of (zsw_display_control_pwr_ctrl hw on s))
  = false.
Proof.
  rewrite pwr_ctrl_eq. unfold regulator_cmd.
  destruct (display_state s), on, (device_is_ready hw reg_dev),
    (CONFIG_BOARD_NATIVE_POSIX hw); reflexivity.
Qed.

(** ** Invariants of [last_brightness] along a run *)

Section BrightnessInvariant.

Variable hw : platform.
Variable P : Z -> Prop.

Hypothesis set_brightness_keeps :
  forall percent s,
    P (last_brightness s) ->
    P (last_brightness (state_of (zsw_display_control_set_brightness hw percent s))).

Lemma step_keeps (o : op) (s : state) :
  P (last_brightness s) -> P (last_brightness (state_of (step hw o s))).
Proof.
  intros H. destruct o; cbn [step]; rewrite ?state_of_discard.
  - exact H.
  - rewrite sleep_ctrl_state_of.
    destruct (display_state s), on; try exact H.
    + apply set_brightness_keeps. exact H.
    + destruct (first_render_since_poweron s); [ exact H | ].
      apply set_brightness_keeps. exact H.
  - rewrite pwr_ctrl_last_brightness. exact H.
  - apply set_brightness_keeps, H.
  - exact H.
  - rewrite lvgl_render_state_of.
    destruct (first_render_since_poweron s); [ | exact H ].
    pose proof (set_brightness_keeps (last_brightness s) s H) as H'.
    destruct (zsw_display_control_set_brightness hw _ _); exact H'.
Qed.

Lemma run_keeps (ops : list op) :
  forall s, P (last_brightness s) -> P (last_brightness (state_of (run hw ops s))).
Proof.
  induction ops as [ | o ops IH]; intros s H; cbn [run]; [ exact H | ].
  rewrite state_of_bind.
  pose proof (step_keeps o s H) as Hs.
  destruct (step hw o s) as [[] s1 t1 | s1 t1]; cbn [state_of] in Hs;
    [ apply IH, Hs | exact Hs ].
Qed.

End BrightnessInvariant.

(** ** Invariants of the trace of a run *)

Section TraceInvariant.

Variable hw : platform.
Variable Q : event -> Prop.

Hypothesis other_events : forall e, targets display_blk e = false -> Q e.

Hypothesis set_brightness_emits :
  forall percent s,
    Forall Q (trace_of (zsw_display_control_set_brightness hw percent s)).

Lemma quiet_emits (t : trace) :
  existsb (targets display_blk) t = false -> Forall Q t.
Proof.
  induction t as [ | e t IH]; cbn [existsb]; intros H; constructor.
  - apply other_events. apply orb_false_elim in H. apply H.
  - apply IH. apply orb_false_elim in H. apply H.
Qed.

Lemma step_emits (o : op) (s : state) : Forall Q (trace_of (step hw o s)).
Proof.
  destruct o; cbn [step]; rewrite ?trace_of_discard.
  - constructor.
  - destruct (sleep_ctrl_trace_of hw on s) as (pre & post & E & Hpre & Hpost).
    rewrite E. apply Forall_app. split; [ apply quiet_emits, Hpre | ].
    apply Forall_app. split; [ | apply quiet_emits, Hpost ].
    destruct (display_state s), on; try constructor.
    + apply set_brightness_emits.
    + destruct (first_render_since_poweron s);
        [ constructor | apply set_brightness_emits ].
  - apply quiet_emits, pwr_ctrl_trace_quiet.
  - apply set_brightness_emits.
  - constructor.
  - destruct (lvgl_render_trace_of hw next_update_in_ms s) as (post & E & Hpost).
    rewrite E. apply Forall_app. split; [ apply quiet_emits; reflexivity | ].
    apply Forall_app. split; [ | apply quiet_emits, Hpost ].
    destruct (first_render_since_poweron s);
      [ apply set_brightness_emits | constructor ].
Qed.

Lemma run_emits (ops : list op) : forall s, Forall Q (trace_of (run hw ops s)).
Proof.
  induction ops as [ | o ops IH]; intros s; cbn [run]; [ constructor | ].
  rewrite trace_of_bind.
  pose proof (step_emits o s) as Hs.
  destruct (step hw o s) as [[] s1 t1 | s1 t1]; cbn [trace_of] in Hs;
    [ apply Forall_app; split; [ exact Hs | apply IH ] | exact Hs ].
Qed.

End TraceInvariant.

(** ** Runs without assertion failure *)

Lemma bind_returns {A B} (m : M A) (k : A -> M B) (s s1 s2 : state)
    (a : A) (b : B) (t1 t2 : trace) :
  m s = Returns a s1 t1 ->
  k a s1 = Returns b s2 t2 ->
  bind m k s = Returns b s2 (t1 ++ t2).
Proof. intros H1 H2. unfold bind. rewrite H1, H2. reflexivity. Qed.






(** ** Bounds under assertions *)

Lemma pulse_width_small (hw : platform) (q : Z) :
  0 <= q <= 100 ->
  0 <= period hw < 2 ^ 32 ->
  pulse_width hw q = q * (period hw / 100)
  /\ 0 <= q * (period hw / 100) <= period hw.
Proof.
  intros Hq Hper.
  assert (Hdiv : period hw = 100 * (period hw / 100) + period hw mod 100)
    by (apply Z.div_mod; lia).
  pose proof (Z.mod_pos_bound (period hw) 100 ltac:(lia)) as Hm.
  assert (Hd : 0 <= period hw / 100) by (apply Z.div_pos; lia).
  assert (Hb : 0 <= q * (period hw / 100) <= period hw) by nia.
  split; [ | exact Hb ].
  unfold pulse_width, uint32_t. apply Z.mod_small. lia.
Qed.

(** X2. With assertions compiled in, the remembered brightness stays in
    1..100 along every run that starts with it there (the boot value is 30):
    [zsw_display_control_get_brightness] then returns a percentage. *)
Theorem asserts_keep_percentage (hw : platform) (ops : list op) (s : state) :
  CONFIG_ASSERT hw = true ->
  1 <= last_brightness s <= 100 ->
  exists b,
    zsw_display_control_get_brightness (state_of (run hw ops s))
    = Returns b (state_of (run hw ops s)) []
    /\ 1 <= b <= 100.
Proof.
  intros Ha Hs. eexists. split; [ reflexivity | ].
  apply (run_keeps hw (fun z => 1 <= z <= 100)); [ | exact Hs ].
  clear s Hs ops. intros percent s Hs.
  rewrite set_brightness_eq, Ha. cbn [andb].
  pose proof (uint8_t_range percent) as Hr.
  destruct (device_is_ready hw display_blk); cbn [negb state_of]; [ | exact Hs ].
  destruct (uint8_t percent <=? 100) eqn:Hle; cbn [negb state_of]; [ | exact Hs ].
  apply Z.leb_le in Hle.
  assert (R : 1 <= last_brightness (remember percent s) <= 100).
  { unfold remember. destruct (uint8_t percent =? 0) eqn:E0; [ exact Hs | ].
    apply Z.eqb_neq in E0. cbn [last_brightness]. lia. }
  destruct (negb _); exact R.
Qed.

Lemma asserts_keep_percentage_witness :
  exists b,
    zsw_display_control_get_brightness
      (state_of (run watch [op_init; op_set_brightness 70; op_set_brightness 200;
                            op_sleep_ctrl true] boot_state))
    = Returns b
        (state_of (run watch [op_init; op_set_brightness 70; op_set_brightness 200;
                              op_sleep_ctrl true] boot_state)) []
    /\ 1 <= b <= 100.
Proof.
  apply (asserts_keep_percentage watch
           [op_init; op_set_brightness 70; op_set_brightness 200; op_sleep_ctrl true]
           boot_state);
    [ reflexivity | cbn; lia ].
Defined.

(** X3. With assertions compiled in and the period a [uint32_t], every
    backlight command of every run, from every state, has a pulse width
    between 0 and the period. *)
Theorem pulses_within_period (hw : platform) (ops : list op) (s : state) :
  CONFIG_ASSERT hw = true ->
  0 <= period hw < 2 ^ 32 ->
  Forall (pulse_within_period hw) (trace_of (run hw ops s)).
Proof.
  intros Ha Hper. apply run_emits.
  - intros e He. destruct e; cbn in He |- *; (exact I || discriminate).
  - clear s ops. intros percent s.
    rewrite set_brightness_eq, Ha. cbn [andb].
    pose proof (uint8_t_range percent) as Hr.
    destruct (device_is_ready hw display_blk); cbn [negb trace_of];
      [ | constructor ].
    destruct (uint8_t percent <=? 100) eqn:Hle; cbn [negb trace_of];
      [ | constructor ].
    apply Z.leb_le in Hle.
    destruct (pulse_width_small hw (uint8_t percent) ltac:(lia) Hper) as [E Hb].
    assert (R : Forall (pulse_within_period hw)
                  [ev_pwm_set_pulse_dt (pulse_width hw (uint8_t percent))]).
    { constructor; [ | constructor ]. cbn. rewrite E. exact Hb. }
    destruct (negb _); exact R.
Qed.

Lemma pulses_within_period_witness :
  Forall (pulse_within_period odd_period)
    (trace_of (run odd_period [op_init; op_set_brightness 99; op_sleep_ctrl true;
                               op_sleep_ctrl false] boot_state)).
Proof.
  apply (pulses_within_period odd_period
           [op_init; op_set_brightness 99; op_sleep_ctrl true; op_sleep_ctrl false]
           boot_state);
    [ reflexivity | cbn; lia ].
Defined.

(** ** Repeated requests and round trips *)

(** X4. A sleep or power request repeated right after it returned changes
    nothing, issues nothing and returns a non-zero code ([-EALREADY], or
    [-EIO] for a sleep request while powered off): no device is suspended,
    resumed or switched twice. *)
Theorem repeated_request_is_noop (hw : platform) (tr : transition) (on : bool)
    (s s' : state) (r : Z) (t : trace) :
  request hw tr on s = Returns r s' t ->
  exists r',
    request hw tr on s' = Returns r' s' []
    /\ r' <> 0
    /\ (r' = - EALREADY \/ (r' = - EIO /\ tr = sleep_ctrl)).
Proof.
  intros H.
  assert (Hd : display_state (state_of (request hw tr on s)) = display_state s')
    by (rewrite H; reflexivity).
  clear H. destruct tr; cbn [request] in Hd |- *.
  - rewrite sleep_ctrl_display_state in Hd.
    assert (Hn : snd (sleep_table (display_state s') on) <> Ok).
    { rewrite <- Hd. destruct (display_state s), on; cbn; discriminate. }
    rewrite (sleep_ctrl_noop_eq hw on s' Hn).
    eexists. split; [ reflexivity | ].
    destruct (snd (sleep_table (display_state s') on)); cbn;
      [ congruence | split; [ discriminate | left; reflexivity ]
      | split; [ discriminate | right; split; reflexivity ] ].
  - destruct (pwr_ctrl_result_table hw on s) as [_ Hd'].
    rewrite Hd in Hd'. rewrite pwr_ctrl_eq, Hd'.
    exists (- EALREADY).
    split; [ | split; [ discriminate | left; reflexivity ] ].
    destruct (display_state s), on, (device_is_ready hw reg_dev); reflexivity.
Qed.

Lemma repeated_request_is_noop_witness :
  exists r',
    request watch sleep_ctrl true (state_in DISPLAY_STATE_AWAKE)
    = Returns r' (state_in DISPLAY_STATE_AWAKE) []
    /\ r' <> 0
    /\ (r' = - EALREADY \/ (r' = - EIO /\ sleep_ctrl = sleep_ctrl)).
Proof.
  apply (repeated_request_is_noop watch sleep_ctrl true
           (state_in DISPLAY_STATE_SLEEPING) (state_in DISPLAY_STATE_AWAKE) 0
           [ev_pm_device_action_run display_dev PM_DEVICE_ACTION_RESUME;
            ev_pm_device_action_run touch_dev PM_DEVICE_ACTION_RESUME;
            ev_pwm_set_pulse_dt 300000;
            ev_display_blanking_off display_dev; ev_k_work_schedule 250]).
  reflexivity.
Defined.

(** X5. Sleep and wake undo each other on the driver's variables: from
    Awake a sleep request followed by a wake request, and from Sleeping a
    wake request followed by a sleep request, both return 0 and end in the
    state they started from; the remembered brightness and the first-render
    flag survive the cycle.  Hypotheses: [last_brightness] is a [uint8_t] and
    the requests for 0 and for [last_brightness] pass the assertions. *)
Theorem sleep_wake_round_trip (hw : platform) (on : bool) (s : state) :
  display_state s
  = (if on then DISPLAY_STATE_SLEEPING else DISPLAY_STATE_AWAKE) ->
  0 <= last_brightness s < 256 ->
  brightness_call_ok hw 0 = true ->
  brightness_call_ok hw (last_brightness s) = true ->
  exists s1 t1 t2,
    zsw_display_control_sleep_ctrl hw on s = Returns 0 s1 t1
    /\ display_state s1
       = (if on then DISPLAY_STATE_AWAKE else DISPLAY_STATE_SLEEPING)
    /\ zsw_display_control_sleep_ctrl hw (negb on) s1 = Returns 0 s t2.
Proof.
  intros Hd Hrange H0 Hlb.
  assert (Hsleep : forall x, display_state x = DISPLAY_STATE_AWAKE ->
            exists t, zsw_display_control_sleep_ctrl hw false x
                      = Returns 0 (with_display_state DISPLAY_STATE_SLEEPING x) t).
  { intros x Hx. rewrite (sleep_ctrl_sleep_eq hw x Hx). cbv zeta.
    rewrite (set_brightness_ok_eq hw 0 _ H0).
    eexists. destruct (device_is_ready hw display_blk); reflexivity. }
  assert (Hwake : forall x, display_state x = DISPLAY_STATE_SLEEPING ->
            last_brightness x = last_brightness s ->
            exists t, zsw_display_control_sleep_ctrl hw true x
                      = Returns 0 (with_display_state DISPLAY_STATE_AWAKE x) t).
  { intros x Hx Hl. rewrite (sleep_ctrl_wake_eq hw x Hx). cbv zeta.
    destruct (first_render_since_poweron x); [ eexists; reflexivity | ].
    rewrite Hl. rewrite (set_brightness_ok_eq hw _ _ Hlb).
    rewrite (remember_same _ _ Hrange) by exact Hl.
    eexists. destruct (device_is_ready hw display_blk); reflexivity. }
  destruct on; cbn [negb].
  - destruct (Hwake s Hd eq_refl) as [t1 E1].
    destruct (Hsleep (with_display_state DISPLAY_STATE_AWAKE s) eq_refl) as [t2 E2].
    exists (with_display_state DISPLAY_STATE_AWAKE s), t1, t2.
    split; [ exact E1 | ]. split; [ reflexivity | ].
    rewrite E2. f_equal. rewrite <- Hd at 1. destruct s; reflexivity.
  - destruct (Hsleep s Hd) as [t1 E1].
    destruct (Hwake (with_display_state DISPLAY_STATE_SLEEPING s) eq_refl eq_refl)
      as [t2 E2].
    exists (with_display_state DISPLAY_STATE_SLEEPING s), t1, t2.
    split; [ exact E1 | ]. split; [ reflexivity | ].
    rewrite E2. f_equal. rewrite <- Hd at 1. destruct s; reflexivity.
Qed.

Lemma sleep_wake_round_trip_witness :
  exists s1 t1 t2,
    zsw_display_control_sleep_ctrl watch false (state_in DISPLAY_STATE_AWAKE)
    = Returns 0 s1 t1
    /\ display_state s1 = DISPLAY_STATE_SLEEPING
    /\ zsw_display_control_sleep_ctrl watch true s1
       = Returns 0 (state_in DISPLAY_STATE_AWAKE) t2.
Proof.
  apply (sleep_wake_round_trip watch false (state_in DISPLAY_STATE_AWAKE));
    [ reflexivity | cbn; lia | reflexivity | reflexivity ].
Defined.

(** X6. A power cycle keeps the remembered brightness and arms the
    first-render flag whatever it was: with the regulator ready, power-off
    then power-on from Sleeping returns 0 twice and ends in the entry state
    with [first_render_since_poweron] set, having issued no backlight
    command. *)
Theorem power_cycle_arms_first_render (hw : platform) (s : state) :
  display_state s = DISPLAY_STATE_SLEEPING ->
  device_is_ready hw reg_dev = true ->
  exists t1 t2,
    zsw_display_control_pwr_ctrl hw false s
    = Returns 0 (with_display_state DISPLAY_STATE_POWERED_OFF s) t1
    /\ zsw_display_control_pwr_ctrl hw true
         (with_display_state DISPLAY_STATE_POWERED_OFF s)
       = Returns 0 (with_first_render true s) t2
    /\ existsb (targets display_blk) (t1 ++ t2) = false.
Proof.
  intros Hd Hreg. rewrite !pwr_ctrl_eq, Hd, Hreg.
  cbn [with_display_state display_state].
  eexists; eexists. split; [ reflexivity | ].
  split.
  - f_equal. unfold with_first_render, with_display_state.
    cbn [display_state first_render_since_poweron last_brightness].
    rewrite <- Hd. reflexivity.
  - unfold regulator_cmd. destruct (CONFIG_BOARD_NATIVE_POSIX hw); reflexivity.
Qed.

Lemma power_cycle_arms_first_render_witness :
  exists t1 t2,
    zsw_display_control_pwr_ctrl watch false (state_in DISPLAY_STATE_SLEEPING)
    = Returns 0 (with_display_state DISPLAY_STATE_POWERED_OFF
                   (state_in DISPLAY_STATE_SLEEPING)) t1
    /\ zsw_display_control_pwr_ctrl watch true
         (with_display_state DISPLAY_STATE_POWERED_OFF
            (state_in DISPLAY_STATE_SLEEPING))
       = Returns 0 (with_first_render true (state_in DISPLAY_STATE_SLEEPING)) t2
    /\ existsb (targets display_blk) (t1 ++ t2) = false.
Proof.
  apply (power_cycle_arms_first_render watch (state_in DISPLAY_STATE_SLEEPING));
    reflexivity.
Defined.

(** ** The first-render flag and the display state along a run *)

(** The display state after each call. *)
Lemma step_display_state (hw : platform) (o : op) (s : state) :
  display_state (state_of (step hw o s)) =
  match o with
  | op_init => DISPLAY_STATE_SLEEPING
  | op_sleep_ctrl on => fst (sleep_table (display_state s) on)
  | op_pwr_ctrl on =>
      fst (pwr_table_with AlreadyInState (device_is_ready hw reg_dev)
             (display_state s) on)
  | _ => display_state s
  end.
Proof.
  destruct o; cbn [step]; rewrite ?state_of_discard.
  - reflexivity.
  - apply sleep_ctrl_display_state.
  - apply pwr_ctrl_result_table.
  - apply set_brightness_display_state.
  - reflexivity.
  - apply lvgl_render_display_state.
Qed.

(** The first-render flag after each call. *)
Lemma step_first_render (hw : platform) (o : op) (s : state) :
  first_render_since_poweron (state_of (step hw o s)) =
  match o with
  | op_pwr_ctrl true =>
      match display_state s with
      | DISPLAY_STATE_POWERED_OFF =>
          device_is_ready hw reg_dev || first_render_since_poweron s
      | _ => first_render_since_poweron s
      end
  | op_lvgl_render ms =>
      match result_of (lvgl_render hw ms s) with
      | Some _ => false
      | None => first_render_since_poweron s
      end
  | _ => first_render_since_poweron s
  end.
Proof.
  destruct o; cbn [step]; rewrite ?state_of_discard.
  - reflexivity.
  - rewrite sleep_ctrl_state_of.
    destruct (display_state s), on; try reflexivity.
    + rewrite set_brightness_first_render. reflexivity.
    + destruct (first_render_since_poweron s) eqn:E; [ exact E | ].
      rewrite set_brightness_first_render. exact E.
  - rewrite pwr_ctrl_eq.
    destruct (display_state s), on, (device_is_ready hw reg_dev); reflexivity.
  - apply set_brightness_first_render.
  - reflexivity.
  - rewrite lvgl_render_eq.
    destruct (first_render_since_poweron s) eqn:E; [ | exact E ].
    pose proof (set_brightness_first_render hw (last_brightness s) s) as H.
    destruct (zsw_display_control_set_brightness hw _ _);
      [ reflexivity | cbn [state_of result_of] in H |- *; congruence ].
Qed.

(** X7. The first-render flag has one writer in each direction: a call
    that changes it is either a power-on from PoweredOff with the regulator
    ready, which sets it, or a render pass, which clears it.  Sleep and wake
    requests, brightness requests, power-off and [init] leave it alone. *)
Theorem first_render_flag_writers (hw : platform) (o : op) (s : state) :
  first_render_since_poweron (state_of (step hw o s))
  <> first_render_since_poweron s ->
  (o = op_pwr_ctrl true
   /\ display_state s = DISPLAY_STATE_POWERED_OFF
   /\ device_is_ready hw reg_dev = true
   /\ first_render_since_poweron (state_of (step hw o s)) = true)
  \/ (exists ms,
        o = op_lvgl_render ms
        /\ first_render_since_poweron (state_of (step hw o s)) = false).
Proof.
  rewrite step_first_render. intros H.
  destruct o as [ | on | [ | ] | p | | ms]; try congruence.
  - left. destruct (display_state s); try congruence.
    destruct (device_is_ready hw reg_dev); cbn [orb] in H |- *;
      [ auto | congruence ].
  - right. exists ms. split; [ reflexivity | ].
    destruct (result_of (lvgl_render hw ms s)); congruence.
Qed.

Lemma first_render_flag_writers_witness :
  (op_lvgl_render 10 = op_pwr_ctrl true
   /\ display_state (with_first_render true (state_in DISPLAY_STATE_AWAKE))
      = DISPLAY_STATE_POWERED_OFF
   /\ device_is_ready watch reg_dev = true
   /\ first_render_since_poweron
        (state_of (step watch (op_lvgl_render 10)
                     (with_first_render true (state_in DISPLAY_STATE_AWAKE))))
      = true)
  \/ (exists ms,
        op_lvgl_render 10 = op_lvgl_render ms
        /\ first_render_since_poweron
             (state_of (step watch (op_lvgl_render 10)
                          (with_first_render true (state_in DISPLAY_STATE_AWAKE))))
           = false).
Proof.
  apply (first_render_flag_writers watch (op_lvgl_render 10)
           (with_first_render true (state_in DISPLAY_STATE_AWAKE))).
  discriminate.
Defined.

(** X8. Without a ready regulator the display is never powered off and a
    wake never waits for the first render: along every run from a state that
    is not PoweredOff the display state is not PoweredOff, and a clear
    first-render flag stays clear. *)
Theorem no_regulator_never_powered_off (hw : platform) (ops : list op)
    (s : state) :
  device_is_ready hw reg_dev = false ->
  display_state s <> DISPLAY_STATE_POWERED_OFF ->
  display_state (state_of (run hw ops s)) <> DISPLAY_STATE_POWERED_OFF
  /\ (first_render_since_poweron s = false ->
      first_render_since_poweron (state_of (run hw ops s)) = false).
Proof.
  intros Hreg. revert s.
  induction ops as [ | o ops IH]; intros s Hd; cbn [run].
  - split; [ exact Hd | auto ].
  - rewrite state_of_bind.
    pose proof (step_display_state hw o s) as Hd1.
    pose proof (step_first_render hw o s) as Hf1.
    rewrite Hreg in Hd1, Hf1.
    assert (Hd' : display_state (state_of (step hw o s))
                  <> DISPLAY_STATE_POWERED_OFF).
    { rewrite Hd1.
      destruct o as [ | on | on | p | | ms]; try exact Hd; try discriminate;
        destruct (display_state s), on; cbn; congruence. }
    assert (Hf' : first_render_since_poweron s = false ->
                  first_render_since_poweron (state_of (step hw o s)) = false).
    { intros Hf. rewrite Hf1.
      destruct o as [ | on | [ | ] | p | | ms]; try exact Hf.
      - destruct (display_state s); exact Hf.
      - destruct (result_of (lvgl_render hw ms s)); [ reflexivity | exact Hf ]. }
    destruct (step hw o s) as [[] s1 t1 | s1 t1]; cbn [state_of] in Hd', Hf'.
    + destruct (IH s1 Hd') as [IHd IHf]. split; [ exact IHd | auto ].
    + split; assumption.
Qed.

Lemma no_regulator_never_powered_off_witness :
  display_state
    (state_of (run no_regulator [op_init; op_pwr_ctrl false; op_sleep_ctrl true]
                 boot_state))
  <> DISPLAY_STATE_POWERED_OFF
  /\ (first_render_since_poweron boot_state = false ->
      first_render_since_poweron
        (state_of (run no_regulator [op_init; op_pwr_ctrl false; op_sleep_ctrl true]
                     boot_state)) = false).
Proof.
  apply (no_regulator_never_powered_off no_regulator
           [op_init; op_pwr_ctrl false; op_sleep_ctrl true] boot_state);
    [ reflexivity | discriminate ].
Defined.

(** X9. Without a ready backlight no call ever issues a backlight command,
    changes the remembered brightness or fails an assertion: every run
    returns, [zsw_display_control_get_brightness] keeps returning the value
    it had at the start, and the trace holds no PWM command. *)
Theorem no_backlight_never_commanded (hw : platform) (ops : list op)
    (s : state) :
  device_is_ready hw display_blk = false ->
  exists s' t,
    run hw ops s = Returns tt s' t
    /\ last_brightness s' = last_brightness s
    /\ Forall (fun e => targets display_blk e = false) t.
Proof.
  intros Hblk.
  assert (Hset : forall percent x,
            zsw_display_control_set_brightness hw percent x = Returns tt x []).
  { intros percent x. unfold zsw_display_control_set_brightness.
    rewrite Hblk. reflexivity. }
  assert (Hret : exists s' t, run hw ops s = Returns tt s' t).
  { revert s. induction ops as [ | o ops IH]; intros s; cbn [run].
    - eexists; eexists; reflexivity.
    - assert (Hstep : exists s1 t1, step hw o s = Returns tt s1 t1).
      { destruct o; cbn [step]; unfold discard.
        - eexists; eexists; reflexivity.
        - destruct (display_state s) eqn:Hd, on;
            try (rewrite sleep_ctrl_noop_eq by (rewrite Hd; discriminate);
                 eexists; eexists; reflexivity).
          + rewrite (sleep_ctrl_sleep_eq hw s Hd). cbv zeta. rewrite Hset.
            eexists; eexists; reflexivity.
          + rewrite (sleep_ctrl_wake_eq hw s Hd). cbv zeta. rewrite Hset.
            destruct (first_render_since_poweron s); eexists; eexists; reflexivity.
        - rewrite pwr_ctrl_eq.
          destruct (display_state s), on, (device_is_ready hw reg_dev);
            eexists; eexists; reflexivity.
        - rewrite Hset. eexists; eexists; reflexivity.
        - eexists; eexists; reflexivity.
        - rewrite lvgl_render_eq, Hset.
          destruct (first_render_since_poweron s); eexists; eexists; reflexivity. }
      destruct Hstep as (s1 & t1 & E1). destruct (IH s1) as (s2 & t2 & E2).
      exists s2, (t1 ++ t2). exact (bind_returns _ _ _ _ _ _ _ _ _ E1 E2). }
  destruct Hret as (s' & t & E). exists s', t. split; [ exact E | ].
  split.
  - change s' with (state_of (Returns tt s' t)). rewrite <- E.
    apply (run_keeps hw (fun z => z = last_brightness s)); [ | reflexivity ].
    intros percent x Hx. rewrite Hset. exact Hx.
  - change t with (trace_of (Returns tt s' t)). rewrite <- E.
    apply run_emits; [ auto | ].
    intros percent x. rewrite Hset. constructor.
Qed.

Lemma no_backlight_never_commanded_witness :
  exists s' t,
    run no_backlight [op_init; op_set_brightness 200; op_sleep_ctrl true;
                      op_sleep_ctrl false] boot_state
    = Returns tt s' t
    /\ last_brightness s' = last_brightness boot_state
    /\ Forall (fun e => targets display_blk e = false) t.
Proof.
  apply (no_backlight_never_commanded no_backlight
           [op_init; op_set_brightness 200; op_sleep_ctrl true; op_sleep_ctrl false]
           boot_state).
  reflexivity.
Defined.

(** ** The backlight while the display is not awake *)

Lemma last_backlight_app (t1 t2 : trace) :
  last_backlight (t1 ++ t2) =
  match last_backlight t2 with
  | Some p => Some p
  | None => last_backlight t1
  end.
Proof.
  induction t1 as [ | e t1 IH]; cbn [app last_backlight].
  - destruct (last_backlight t2); reflexivity.
  - rewrite IH. destruct (last_backlight t2); reflexivity.
Qed.

Lemma last_backlight_quiet (t : trace) :
  existsb (targets display_blk) t = false -> last_backlight t = None.
Proof.
  induction t as [ | e t IH]; cbn [existsb last_backlight]; intros H;
    [ reflexivity | ].
  apply orb_false_elim in H. destruct H as [He Ht].
  rewrite (IH Ht). destruct e; try reflexivity. discriminate He.
Qed.

(** The trace of a request for 0 percent, passed or not. *)
Lemma set_brightness_0_trace (hw : platform) (s : state) :
  trace_of (zsw_display_control_set_brightness hw 0 s)
  = if device_is_ready hw display_blk then [ev_pwm_set_pulse_dt 0] else [].
Proof.
  rewrite set_brightness_eq.
  change (uint8_t 0) with 0. change (pulse_width hw 0) with 0.
  destruct (device_is_ready hw display_blk), (CONFIG_ASSERT hw),
    (pwm_set_pulse_dt hw 0 =? 0); reflexivity.
Qed.

Lemma request_step_dark (hw : platform) (o : op) (s : state) (t0 : trace) :
  is_request o = true ->
  (device_is_ready hw display_blk = false -> last_backlight t0 = None) ->
  (display_state s <> DISPLAY_STATE_AWAKE -> dark (last_backlight t0) = true) ->
  (device_is_ready hw display_blk = false ->
   last_backlight (t0 ++ trace_of (step hw o s)) = None)
  /\ (display_state (state_of (step hw o s)) <> DISPLAY_STATE_AWAKE ->
      dark (last_backlight (t0 ++ trace_of (step hw o s))) = true).
Proof.
  intros Ho Hblk Hdark.
  destruct o as [ | on | on | p | | ms]; try discriminate Ho; cbn [step];
    rewrite ?state_of_discard, ?trace_of_discard.
  - destruct (sleep_ctrl_trace_of hw on s) as (pre & post & E & Hpre & Hpost).
    rewrite E, sleep_ctrl_display_state, !last_backlight_app.
    rewrite (last_backlight_quiet _ Hpre), (last_backlight_quiet _ Hpost).
    destruct (display_state s) eqn:Hd, on; cbn [sleep_table fst last_backlight].
    + split; [ exact Hblk | congruence ].
    + rewrite set_brightness_0_trace.
      destruct (device_is_ready hw display_blk) eqn:Hr; cbn [last_backlight].
      * split; [ discriminate | reflexivity ].
      * split; [ exact Hblk | intros _; rewrite Hblk; reflexivity ].
    + split; [ | congruence ].
      intros Hr. destruct (first_render_since_poweron s); cbn [last_backlight];
        [ exact (Hblk Hr) | ].
      unfold zsw_display_control_set_brightness. rewrite Hr. cbn.
      exact (Hblk Hr).
    + split; [ exact Hblk | intros _; apply Hdark; discriminate ].
    + split; [ exact Hblk | intros _; apply Hdark; discriminate ].
    + split; [ exact Hblk | intros _; apply Hdark; discriminate ].
  - rewrite last_backlight_app.
    rewrite (last_backlight_quiet _ (pwr_ctrl_trace_quiet hw on s)).
    split; [ exact Hblk | ].
    destruct (pwr_ctrl_result_table hw on s) as [_ Hd]. rewrite Hd.
    intros H. apply Hdark. intros Ha. apply H. rewrite Ha.
    destruct on; reflexivity.
  - cbn [trace_of state_of zsw_display_control_get_brightness bind get ret].
    rewrite app_nil_r. split; [ exact Hblk | exact Hdark ].
Qed.

(** X10. Sleep and power requests alone never leave the display asleep or
    powered off with the backlight commanded on: after every run of such
    requests that ends in a state other than Awake, the last backlight
    command of the run, if there is one, has pulse width 0. *)
Theorem requests_leave_backlight_dark (hw : platform) (ops : list op)
    (s : state) :
  forallb is_request ops = true ->
  display_state (state_of (run hw ops s)) <> DISPLAY_STATE_AWAKE ->
  dark (last_backlight (trace_of (run hw ops s))) = true.
Proof.
  intros Hops.
  enough (G : forall t0,
            (device_is_ready hw display_blk = false -> last_backlight t0 = None) ->
            (display_state s <> DISPLAY_STATE_AWAKE ->
             dark (last_backlight t0) = true) ->
            display_state (state_of (run hw ops s)) <> DISPLAY_STATE_AWAKE ->
            dark (last_backlight (t0 ++ trace_of (run hw ops s))) = true).
  { intros H. apply (G [] (fun _ => eq_refl) (fun _ => eq_refl) H). }
  revert s Hops.
  induction ops as [ | o ops IH]; intros s Hops t0 Hblk Hdark; cbn [run].
  - cbn [ret state_of trace_of]. rewrite app_nil_r. exact Hdark.
  - cbn [forallb] in Hops. apply andb_prop in Hops. destruct Hops as [Ho Hops].
    rewrite state_of_bind, trace_of_bind.
    destruct (request_step_dark hw o s t0 Ho Hblk Hdark) as [Hblk1 Hdark1].
    destruct (step hw o s) as [[] s1 t1 | s1 t1];
      cbn [state_of trace_of] in Hblk1, Hdark1.
    + rewrite app_assoc. apply (IH s1 Hops (t0 ++ t1) Hblk1 Hdark1).
    + exact Hdark1.
Qed.

Lemma requests_leave_backlight_dark_witness :
  dark (last_backlight
          (trace_of (run watch [op_sleep_ctrl true; op_sleep_ctrl false;
                                op_pwr_ctrl false]
                       (state_in DISPLAY_STATE_SLEEPING)))) = true.
Proof.
  apply (requests_leave_backlight_dark watch
           [op_sleep_ctrl true; op_sleep_ctrl false; op_pwr_ctrl false]
           (state_in DISPLAY_STATE_SLEEPING));
    [ reflexivity | discriminate ].
Defined.

(** ** The mapping from percent to pulse width *)

Lemma set_brightness_trace_in_range (hw : platform) (p : Z) (s : state) :
  device_is_ready hw display_blk = true ->
  0 <= p <= 100 ->
  trace_of (zsw_display_control_set_brightness hw p s)
  = [ev_pwm_set_pulse_dt (pulse_width hw p)].
Proof.
  intros Hr Hp. rewrite set_brightness_eq, Hr. cbn [negb].
  rewrite (uint8_t_small p) by lia.
  assert (Ele : (p <=? 100) = true) by (apply Z.leb_le; lia).
  rewrite Ele, andb_false_r.
  destruct (CONFIG_ASSERT hw && negb _); reflexivity.
Qed.

(** X11. The commanded pulse width is monotone in the percentage and never
    exceeds the period: for percentages [p <= q] in 0..100 and a [uint32_t]
    period, the request for [p] commands a pulse width no larger than the
    request for [q], and both lie between 0 and the period. *)
Theorem pulse_width_monotone (hw : platform) (p q : Z) (s : state) :
  device_is_ready hw display_blk = true ->
  0 <= p <= q ->
  q <= 100 ->
  0 <= period hw < 2 ^ 32 ->
  exists a b,
    trace_of (zsw_display_control_set_brightness hw p s) = [ev_pwm_set_pulse_dt a]
    /\ trace_of (zsw_display_control_set_brightness hw q s) = [ev_pwm_set_pulse_dt b]
    /\ 0 <= a <= b
    /\ b <= period hw.
Proof.
  intros Hr Hpq Hq Hper.
  exists (pulse_width hw p), (pulse_width hw q).
  rewrite !set_brightness_trace_in_range by (auto; lia).
  destruct (pulse_width_small hw p ltac:(lia) Hper) as [Ep Hp].
  destruct (pulse_width_small hw q ltac:(lia) Hper) as [Eq Hq'].
  rewrite Ep, Eq.
  assert (Hd : 0 <= period hw / 100) by (apply Z.div_pos; lia).
  repeat split; try lia; nia.
Qed.

Lemma pulse_width_monotone_witness :
  exists a b,
    trace_of (zsw_display_control_set_brightness odd_period 40 boot_state)
    = [ev_pwm_set_pulse_dt a]
    /\ trace_of (zsw_display_control_set_brightness odd_period 90 boot_state)
       = [ev_pwm_set_pulse_dt b]
    /\ 0 <= a <= b
    /\ b <= period odd_period.
Proof.
  apply (pulse_width_monotone odd_period 40 90 boot_state);
    [ reflexivity | lia | lia | cbn; lia ].
Defined.

(** X12. A backlight whose period is below 100 cannot be lit: every
    request in 0..100 commands pulse width 0, because the period is divided
    by 100 before the multiplication; the percentage is remembered all the
    same. *)
Theorem short_period_stays_dark (hw : platform) (p : Z) (s : state) :
  device_is_ready hw display_blk = true ->
  0 <= period hw < 100 ->
  1 <= p <= 100 ->
  trace_of (zsw_display_control_set_brightness hw p s) = [ev_pwm_set_pulse_dt 0]
  /\ last_brightness (state_of (zsw_display_control_set_brightness hw p s)) = p.
Proof.
  intros Hr Hper Hp. split.
  - rewrite set_brightness_trace_in_range by (auto; lia).
    unfold pulse_width. rewrite Z.div_small by lia. rewrite Z.mul_0_r.
    reflexivity.
  - rewrite set_brightness_eq, Hr. cbn [negb].
    rewrite (uint8_t_small p) by lia.
    assert (Ele : (p <=? 100) = true) by (apply Z.leb_le; lia).
    rewrite Ele, andb_false_r.
    assert (R : last_brightness (remember p s) = p).
    { unfold remember. rewrite (uint8_t_small p) by lia.
      destruct (p =? 0) eqn:E0; [ apply Z.eqb_eq in E0; lia | reflexivity ]. }
    destruct (CONFIG_ASSERT hw && negb _); exact R.
Qed.

Lemma short_period_stays_dark_witness :
  trace_of (zsw_display_control_set_brightness
              {| device_is_ready := fun _ => true;
                 period := 99;
                 pwm_set_pulse_dt := pwm_always_ok;
                 CONFIG_ASSERT := true;
                 CONFIG_BOARD_NATIVE_POSIX := false |} 100 boot_state)
  = [ev_pwm_set_pulse_dt 0]
  /\ last_brightness
       (state_of (zsw_display_control_set_brightness
                    {| device_is_ready := fun _ => true;
                       period := 99;
                       pwm_set_pulse_dt := pwm_always_ok;
                       CONFIG_ASSERT := true;
                       CONFIG_BOARD_NATIVE_POSIX := false |} 100 boot_state))
     = 100.
Proof.
  apply (short_period_stays_dark
           {| device_is_ready := fun _ => true;
              period := 99;
              pwm_set_pulse_dt := pwm_always_ok;
              CONFIG_ASSERT := true;
              CONFIG_BOARD_NATIVE_POSIX := false |} 100 boot_state);
    [ reflexivity | cbn; lia | lia ].
Defined.

(** ** Brightness across a sleep cycle, render after render *)

(** X13. A requested brightness survives a sleep cycle: from Awake with
    the first-render flag clear, a request for [p] in 1..100 followed by a
    sleep and a wake request returns, ends Awake with [p] remembered, and the
    last backlight command of the run is the pulse width of [p] again. *)
Theorem brightness_survives_sleep_cycle (hw : platform) (p : Z) (s : state) :
  display_state s = DISPLAY_STATE_AWAKE ->
  first_render_since_poweron s = false ->
  device_is_ready hw display_blk = true ->
  1 <= p <= 100 ->
  brightness_call_ok hw 0 = true ->
  brightness_call_ok hw p = true ->
  exists s' t,
    run hw [op_set_brightness p; op_sleep_ctrl false; op_sleep_ctrl true] s
    = Returns tt s' t
    /\ display_state s' = DISPLAY_STATE_AWAKE
    /\ last_brightness s' = p
    /\ last_backlight t = Some (pulse_width hw p).
Proof.
  intros Hd Hf Hr Hp H0 Hok.
  assert (E8 : uint8_t p = p) by (apply uint8_t_small; lia).
  assert (Hrem : remember p s
                 = {| display_state := DISPLAY_STATE_AWAKE;
                      first_render_since_poweron := false;
                      last_brightness := p |}).
  { unfold remember. rewrite E8.
    destruct (p =? 0) eqn:E0; [ apply Z.eqb_eq in E0; lia | ].
    rewrite Hd, Hf. reflexivity. }
  set (s1 := {| display_state := DISPLAY_STATE_AWAKE;
                first_render_since_poweron := false;
                last_brightness := p |}) in *.
  assert (E1 : step hw (op_set_brightness p) s = Returns tt s1 (backlight_cmd hw p)).
  { cbn [step]. rewrite (set_brightness_ok_eq hw p s Hok), Hr, Hrem. reflexivity. }
  assert (E2 : exists t2,
             step hw (op_sleep_ctrl false) s1
             = Returns tt (with_display_state DISPLAY_STATE_SLEEPING s1) t2).
  { cbn [step]. unfold discard.
    rewrite (sleep_ctrl_sleep_eq hw s1 eq_refl). cbv zeta.
    rewrite (set_brightness_ok_eq hw 0 _ H0), Hr. eexists. reflexivity. }
  destruct E2 as [t2 E2].
  assert (E3 : step hw (op_sleep_ctrl true) (with_display_state DISPLAY_STATE_SLEEPING s1)
               = Returns tt s1
                   ([ev_pm_device_action_run display_dev PM_DEVICE_ACTION_RESUME]
                    ++ touch_cmd hw PM_DEVICE_ACTION_RESUME
                    ++ backlight_cmd hw p
                    ++ [ev_display_blanking_off display_dev; ev_k_work_schedule 250])).
  { cbn [step]. unfold discard.
    rewrite (sleep_ctrl_wake_eq hw (with_display_state DISPLAY_STATE_SLEEPING s1)
               eq_refl). cbv zeta.
    cbn [with_display_state s1 first_render_since_poweron last_brightness
         display_state].
    rewrite (set_brightness_ok_eq hw p _ Hok), Hr.
    rewrite (remember_same p) by (cbn; lia || reflexivity).
    rewrite <- app_assoc. reflexivity. }
  eexists; eexists. split; [ | split; [ | split ] ].
  - cbn [run].
    refine (bind_returns _ _ _ _ _ _ _ _ _ E1 _).
    refine (bind_returns _ _ _ _ _ _ _ _ _ E2 _).
    refine (bind_returns _ _ _ _ _ _ _ _ _ E3 _).
    reflexivity.
  - reflexivity.
  - reflexivity.
  - rewrite !last_backlight_app. unfold backlight_cmd, touch_cmd.
    rewrite Hr, E8.
    destruct (device_is_ready hw touch_dev); reflexivity.
Qed.

Lemma brightness_survives_sleep_cycle_witness :
  exists s' t,
    run watch [op_set_brightness 80; op_sleep_ctrl false; op_sleep_ctrl true]
      boot_state
    = Returns tt s' t
    /\ display_state s' = DISPLAY_STATE_AWAKE
    /\ last_brightness s' = 80
    /\ last_backlight t = Some (pulse_width watch 80).
Proof.
  apply (brightness_survives_sleep_cycle watch 80 boot_state);
    [ reflexivity | reflexivity | reflexivity | lia | reflexivity | reflexivity ].
Defined.

(** X14. The backlight is restored by one render pass only: a render pass
    that follows a render pass that returned leaves the state as it is and
    issues nothing but the LVGL call and its own rescheduling. *)
Theorem render_after_render (hw : platform) (ms ms' : Z) (s s' : state)
    (t : trace) :
  lvgl_render hw ms s = Returns tt s' t ->
  lvgl_render hw ms' s'
  = Returns tt s' [ev_lv_task_handler; ev_k_work_schedule ms'].
Proof.
  intros H.
  assert (Hf : first_render_since_poweron s' = false).
  { pose proof (step_first_render hw (op_lvgl_render ms) s) as Hs.
    cbn [step] in Hs. rewrite H in Hs. exact Hs. }
  rewrite lvgl_render_eq, Hf. reflexivity.
Qed.

Lemma render_after_render_witness :
  lvgl_render watch 7 (state_in DISPLAY_STATE_AWAKE)
  = Returns tt (state_in DISPLAY_STATE_AWAKE)
      [ev_lv_task_handler; ev_k_work_schedule 7].
Proof.
  apply (render_after_render watch 33 7
           (with_first_render true (state_in DISPLAY_STATE_AWAKE))
           (state_in DISPLAY_STATE_AWAKE)
           [ev_lv_task_handler; ev_pwm_set_pulse_dt 300000; ev_k_work_schedule 33]).
  reflexivity.
Defined.
